(** * Print gateway: a shallow embedding of [print_server.py] and [config.py]

    The server authenticates a request, validates an uploaded file, stores
    it in a temporary file, runs the spooler commands [lp] / [lpstat] and
    turns their exit code and output into a JSON response.

    Python text is modelled as a list of 8-bit characters (code points
    0..255); the operating system, the spooler and the third-party
    helpers are an explicit [platform] record that the handlers consult. *)

From Stdlib Require Import List String Ascii ZArith Lia Bool Arith.
From Stdlib Require Import DecimalString.
Import ListNotations.

(** ** Python text *)

Definition str := list ascii.

Definition lit (s : string) : str := list_ascii_of_string s.

Definition str_eq_dec : forall a b : str, {a = b} + {a <> b} :=
  list_eq_dec ascii_dec.

Definition str_eqb (a b : str) : bool :=
  if str_eq_dec a b then true else false.

Module Py.

(** [str.isspace] on one character, for code points below 256:
    TAB..CR, FS..US, SPACE, NEL and NBSP. *)
Definition isspace (c : ascii) : bool :=
  let n := N_of_ascii c in
  ((9 <=? n) && (n <=? 13) || (28 <=? n) && (n <=? 32)
   || (n =? 133) || (n =? 160))%N.

(** The whitespace the integer parser skips in plain ASCII text
    (C [isspace]); NEL and NBSP are first rewritten to a space
    by the interpreter, so they are skipped as well. *)
Definition isspace_int (c : ascii) : bool :=
  let n := N_of_ascii c in
  ((9 <=? n) && (n <=? 13) || (n =? 32) || (n =? 133) || (n =? 160))%N.

(** [str.lower] on one character, for code points below 256. *)
Definition lower_char (c : ascii) : ascii :=
  let n := N_of_ascii c in
  if ((65 <=? n) && (n <=? 90)
      || (192 <=? n) && (n <=? 222) && negb (n =? 215))%N
  then ascii_of_N (n + 32) else c.

Definition lower (s : str) : str := map lower_char s.

(** [s.startswith(p)], returning what follows the prefix. *)
Fixpoint strip_prefix (p s : str) : option str :=
  match p, s with
  | [], _ => Some s
  | _ :: _, [] => None
  | a :: p', b :: s' => if Ascii.eqb a b then strip_prefix p' s' else None
  end.

Definition startswith (s p : str) : bool :=
  match strip_prefix p s with Some _ => true | None => false end.

(** [sub in s]. *)
Fixpoint contains (sub s : str) : bool :=
  match strip_prefix sub s with
  | Some _ => true
  | None => match s with
            | [] => false
            | _ :: s' => contains sub s'
            end
  end.

(** [s.partition(sep)] when [sep] occurs: the text before and after the
    leftmost occurrence. *)
Fixpoint partition (sep s : str) : option (str * str) :=
  match strip_prefix sep s with
  | Some rest => Some ([], rest)
  | None => match s with
            | [] => None
            | c :: s' => match partition sep s' with
                         | Some (a, b) => Some (c :: a, b)
                         | None => None
                         end
            end
  end.

(** [s.split(sep)] for a non-empty [sep]: cut at the leftmost
    occurrence and go on in the remainder.  The remainder is shorter
    than [s], so [length s] rounds are enough. *)
Fixpoint split_fuel (fuel : nat) (sep s : str) : list str :=
  match fuel with
  | O => [s]
  | S fuel' => match partition sep s with
               | None => [s]
               | Some (a, b) => a :: split_fuel fuel' sep b
               end
  end.

Definition split (sep s : str) : list str := split_fuel (List.length s) sep s.

(** [s.rsplit(sep, 1)]: cut once, at the rightmost occurrence. *)
Definition rsplit1 (sep s : str) : list str :=
  match partition (rev sep) (rev s) with
  | Some (a, b) => [rev b; rev a]
  | None => [s]
  end.

(** [s.split()]: the maximal runs of non-whitespace characters.
    [cur] is the run being read, latest character first. *)
Fixpoint split_ws_go (cur : str) (s : str) : list str :=
  match s with
  | [] => match cur with [] => [] | _ => [rev cur] end
  | c :: s' =>
      if isspace c
      then match cur with
           | [] => split_ws_go [] s'
           | _ => rev cur :: split_ws_go [] s'
           end
      else split_ws_go (c :: cur) s'
  end.

Definition split_ws (s : str) : list str := split_ws_go [] s.

Fixpoint lstrip (s : str) : str :=
  match s with
  | c :: s' => if isspace c then lstrip s' else s
  | [] => []
  end.

Definition rstrip (s : str) : str := rev (lstrip (rev s)).

Definition strip (s : str) : str := rstrip (lstrip s).

(** [sep.join(l)]. *)
Fixpoint join (sep : str) (l : list str) : str :=
  match l with
  | [] => []
  | [x] => x
  | x :: l' => x ++ sep ++ join sep l'
  end.

(** [str(n)] for an integer. *)
Definition str_of_int (n : Z) : str :=
  lit (NilZero.string_of_int (Z.to_int n)).

(** *** [int(text)] in base ten

    Surrounding whitespace is dropped, one sign is allowed, and the
    digits may be grouped by single underscores.  A text with a NUL
    character or with more digits than the interpreter's limit is
    refused like any other malformed text ([ValueError], here [None]). *)

Definition digit_of (c : ascii) : option Z :=
  let n := N_of_ascii c in
  if ((48 <=? n) && (n <=? 57))%N then Some (Z.of_N n - 48)%Z else None.

Definition lstrip_int (s : str) : str :=
  (fix go s := match s with
               | c :: s' => if isspace_int c then go s' else s
               | [] => []
               end) s.

(** [digits acc after_digit s]: read digits and underscores up to the end;
    an underscore is accepted only directly after a digit and must be
    followed by one. *)
Fixpoint digits (acc : Z) (after_digit : bool) (s : str) : option Z :=
  match s with
  | [] => if after_digit then Some acc else None
  | c :: s' =>
      match digit_of c with
      | Some d => digits (10 * acc + d)%Z true s'
      | None =>
          if Ascii.eqb c "_"
          then if after_digit then
                 match s' with
                 | d :: _ => match digit_of d with
                             | Some _ => digits acc false s'
                             | None => None
                             end
                 | [] => None
                 end
               else None
          else None
      end
  end.

Definition is_digit (c : ascii) : bool :=
  match digit_of c with
  | Some _ => true
  | None => false
  end.

(** The interpreter's default limit on the number of digits of a
    decimal text it converts. *)
Definition MAX_STR_DIGITS : Z := 4300.

Definition int (s : str) : option Z :=
  let body := rev (lstrip_int (rev (lstrip_int s))) in
  if existsb (fun c => Ascii.eqb c zero) s then None else
  if (MAX_STR_DIGITS <? Z.of_nat (List.length (filter is_digit body)))%Z
  then None else
  match body with
  | "-"%char :: ds => option_map Z.opp (digits 0%Z false ds)
  | "+"%char :: ds => digits 0%Z false ds
  | ds => digits 0%Z false ds
  end.

(** *** [os.path.splitext] on POSIX paths *)

(** [s.rfind(c)] for one character, [-1] when absent. *)
Definition rfind_char (c : ascii) (s : str) : Z :=
  (fix go (i : Z) (best : Z) (s : str) : Z :=
     match s with
     | [] => best
     | d :: s' => go (i + 1)%Z (if Ascii.eqb d c then i else best) s'
     end) 0%Z (-1)%Z s.

Definition slice (lo hi : Z) (s : str) : str :=
  firstn (Z.to_nat (hi - lo)) (skipn (Z.to_nat lo) s).

(** The extension starts at the last period of the last path component,
    unless that component consists of leading periods only up to it. *)
Definition splitext (p : str) : str * str :=
  let sepIndex := rfind_char "/" p in
  let dotIndex := rfind_char "." p in
  if (sepIndex <? dotIndex)%Z
     && existsb (fun c => negb (Ascii.eqb c "."))
                (slice (sepIndex + 1) dotIndex p)
  then (firstn (Z.to_nat dotIndex) p, skipn (Z.to_nat dotIndex) p)
  else (p, []).

End Py.

(** ** Configuration ([config.py])

    [API_KEY] and [PRINTER_NAME] are read from the process environment
    with a default; the print options and the copy limit are constants. *)

Module Config.

Section Environ.
Variable environ : str -> option str.

Definition environ_get (key default : str) : str :=
  match environ key with
  | Some v => v
  | None => default
  end.

Definition API_KEY : str :=
  environ_get (lit "PRINT_API_KEY") (lit "CHANGE_ME_GENERATE_A_SECURE_KEY").

Definition PRINTER_NAME : str :=
  environ_get (lit "PRINTER_NAME") (lit "").
End Environ.

Definition PRINT_OPTIONS : list str :=
  [lit "fit-to-page"; lit "media=A4.Borderless"].

Definition MAX_COPIES : Z := 10.

Definition MAX_CONTENT_LENGTH : Z := 16 * 1024 * 1024.

End Config.

(** ** Values exchanged with the outside *)

(** JSON bodies built by [jsonify]; object fields are kept in the order
    of the dictionary display. *)
#[local] Unset Elimination Schemes.
Inductive json :=
| JNull
| JBool (b : bool)
| JInt (n : Z)
| JStr (s : str)
| JList (l : list json)
| JObj (fields : list (str * json)).
#[local] Set Elimination Schemes.

Definition jsonify (fields : list (str * json)) : json := JObj fields.

Definition json_opt_str (o : option str) : json :=
  match o with
  | Some s => JStr s
  | None => JNull
  end.

(** A view's result: body and HTTP status. *)
Definition response := (json * Z)%type.

Definition status (r : response) : Z := snd r.
Definition body (r : response) : json := fst r.

Record FileStorage := { filename : str; stream : str }.

(** A request as it arrives: the headers, the length of the body, and
    the file parts and form fields the body holds. *)
Record request := {
  headers : str -> option str;
  content_length : Z;
  uploads : str -> option FileStorage;
  fields : str -> option str
}.

(** The application is configured with [MAX_CONTENT_LENGTH]
    ([app.config.from_object(Config)]); the framework refuses to parse
    a body that is longer. *)
Definition too_large (req : request) : bool :=
  (Config.MAX_CONTENT_LENGTH <? content_length req)%Z.

(** [request.files] and [request.form] as a view sees them: they have
    entries only when the body could be parsed. *)
Definition files (req : request) (key : str) : option FileStorage :=
  if too_large req then None else uploads req key.

Definition form (req : request) (key : str) : option str :=
  if too_large req then None else fields req key.

(** Exceptions that can travel through the views. *)
Inductive exn :=
| TypeError (msg : str)
| IndexError (msg : str)
| TimeoutExpired (cmd : list str) (timeout : Z)
| OSError (msg : str)
| RequestEntityTooLarge.

(** [repr] of a list of plain words such as command-line flags. *)
Definition repr_words (l : list str) : str :=
  lit "[" ++ Py.join (lit ", ") (map (fun w => lit "'" ++ w ++ lit "'") l) ++ lit "]".

(** [str(e)] *)
Definition exn_str (e : exn) : str :=
  match e with
  | TypeError m | IndexError m | OSError m => m
  | TimeoutExpired cmd t =>
      lit "Command '" ++ repr_words cmd ++ lit "' timed out after "
      ++ Py.str_of_int t ++ lit " seconds"
  | RequestEntityTooLarge =>
      lit "413 Request Entity Too Large: The data value transmitted exceeds the capacity limit."
  end.

(** What running a child process can come to. *)
Inductive run_result :=
| Completed (returncode : Z) (stdout stderr : str)
| TimedOut
| SpawnError (msg : str).

Record CompletedProcess := {
  returncode : Z;
  stdout : str;
  stderr : str
}.

(** Everything the handlers get from outside the repository: the
    spooler commands, the file system, werkzeug's [secure_filename]
    and the iteration order of a set of strings.  A child process is
    identified by its argument vector; one request never runs the same
    command twice. *)
Record platform := {
  run_child : list str -> run_result;
  secure_filename : str -> str;
  mkstemp : str -> str + str;
  file_save : str -> option str;
  unlink_error : str -> option str;
  set_order : list str -> list str
}.

(** The observable state: temporary files on disk and the argument
    vectors passed to [subprocess.run] so far, oldest first. *)
Record world := {
  disk : list str;
  spawned : list (list str)
}.

Definition empty_world : world := {| disk := []; spawned := [] |}.

(** ** A state-and-exception monad for the views *)

Inductive outcome (A : Type) :=
| Return (a : A)
| Raise (e : exn).

Arguments Return {A} a.
Arguments Raise {A} e.

Definition M (A : Type) : Type := world -> outcome A * world.

Definition ret {A} (a : A) : M A := fun w => (Return a, w).

Definition raise {A} (e : exn) : M A := fun w => (Raise e, w).

Definition bind {A B} (m : M A) (k : A -> M B) : M B :=
  fun w => match m w with
           | (Return a, w') => k a w'
           | (Raise e, w') => (Raise e, w')
           end.

(** [try: body  except Exception as e: handler e] *)
Definition try_except {A} (body : M A) (handler : exn -> M A) : M A :=
  fun w => match body w with
           | (Return a, w') => (Return a, w')
           | (Raise e, w') => handler e w'
           end.

(** [try: body  finally: fin] *)
Definition try_finally {A} (body : M A) (fin : M unit) : M A :=
  fun w => match body w with
           | (r, w') => match fin w' with
                        | (Return _, w'') => (r, w'')
                        | (Raise e, w'') => (Raise e, w'')
                        end
           end.

Declare Scope monad_scope.
Delimit Scope monad_scope with monad.
Notation "x <- m ;; k" := (bind m (fun x => k))
  (at level 61, m at next level, right associativity) : monad_scope.
Notation "m ;;; k" := (bind m (fun _ => k))
  (at level 61, right associativity) : monad_scope.
Open Scope monad_scope.

(** [l[i]] *)
Definition index {A} (l : list A) (i : nat) : M A :=
  match nth_error l i with
  | Some a => ret a
  | None => raise (IndexError (lit "list index out of range"))
  end.

(** ** The server ([print_server.py]) *)

Definition ALLOWED_EXTENSIONS : list str :=
  [lit "png"; lit "jpg"; lit "jpeg"; lit "gif"; lit "bmp"; lit "webp"].

Definition mem (x : str) (l : list str) : bool := existsb (str_eqb x) l.

Definition allowed_file (filename : str) : bool :=
  Py.contains (lit ".") filename
  && match nth_error (Py.rsplit1 (lit ".") filename) 1 with
     | Some ext => mem (Py.lower ext) ALLOWED_EXTENSIONS
     | None => false
     end.

(** Truth value of an optional text: [None] and [''] are false. *)
Definition truthy (o : option str) : bool :=
  match o with
  | Some (_ :: _) => true
  | _ => false
  end.

Definition text_of (o : option str) : str :=
  match o with
  | Some s => s
  | None => []
  end.

Definition is_ascii_char (c : ascii) : bool := (N_of_ascii c <? 128)%N.

(** The argument of [int(...)] in the copies computation: the form
    text, or the integer default. *)
Inductive form_value :=
| FormText (s : str)
| FormDefault (n : Z).

Definition int_of (v : form_value) : option Z :=
  match v with
  | FormText s => Py.int s
  | FormDefault n => Some n
  end.

Definition NEWLINE : str := [ascii_of_nat 10].

Definition DEFAULT_MARKER : str := lit "system default destination:".
Definition REQUEST_MARKER : str := lit "request id is".

Inductive route := GET_health | POST_print | GET_printers.

Section Server.

Variable environ : str -> option str.
Variable P : platform.

Let API_KEY := Config.API_KEY environ.
Let PRINTER_NAME := Config.PRINTER_NAME environ.

(** *** Primitive effects *)

(** [subprocess.run(argv, capture_output=True, text=True, timeout=t)] *)
Definition subprocess_run (argv : list str) (timeout : Z) : M CompletedProcess :=
  fun w =>
    let w' := {| disk := disk w; spawned := spawned w ++ [argv] |} in
    match run_child P argv with
    | Completed rc out err =>
        (Return {| returncode := rc; stdout := out; stderr := err |}, w')
    | TimedOut => (Raise (TimeoutExpired argv timeout), w')
    | SpawnError msg => (Raise (OSError msg), w')
    end.

(** [tempfile.NamedTemporaryFile(delete=False, suffix=...)]: the new
    file's name. *)
Definition NamedTemporaryFile (suffix : str) : M str :=
  fun w =>
    match mkstemp P suffix with
    | inl path => (Return path, {| disk := path :: disk w; spawned := spawned w |})
    | inr msg => (Raise (OSError msg), w)
    end.

(** [file.save(path)] *)
Definition save (file : FileStorage) (path : str) : M unit :=
  match file_save P path with
  | None => ret tt
  | Some msg => raise (OSError msg)
  end.

(** [os.unlink(path)] *)
Definition os_unlink (path : str) : M unit :=
  fun w =>
    match unlink_error P path with
    | None => (Return tt, {| disk := remove str_eq_dec path (disk w);
                             spawned := spawned w |})
    | Some msg => (Raise (OSError msg), w)
    end.

(** [secrets.compare_digest] on two texts: it refuses text with a
    character outside ASCII. *)
Definition compare_digest (a b : str) : M bool :=
  if forallb is_ascii_char a && forallb is_ascii_char b
  then ret (str_eqb a b)
  else raise (TypeError (lit "comparing strings with non-ASCII characters is not supported")).

(** The first read of [request.files] or [request.form] parses the
    body; a body longer than [MAX_CONTENT_LENGTH] is refused with the
    HTTP exception 413. *)
Definition load_form_data (req : request) : M unit :=
  if too_large req then raise RequestEntityTooLarge else ret tt.

(** *** [require_api_key] *)

Definition require_api_key (f : request -> M response) (req : request) : M response :=
  let api_key := headers req (lit "X-API-Key") in
  if negb (truthy api_key)
  then ret (jsonify [(lit "error", JStr (lit "Missing API key"))], 401%Z)
  else
    same <- compare_digest (text_of api_key) API_KEY ;;
    if negb same
    then ret (jsonify [(lit "error", JStr (lit "Invalid API key"))], 403%Z)
    else f req.

(** *** [get_printer_name] *)

Definition get_printer_name : M (option str) :=
  if truthy (Some PRINTER_NAME) then ret (Some PRINTER_NAME)
  else
    try_except
      (result <- subprocess_run [lit "lpstat"; lit "-d"] 10 ;;
       if (returncode result =? 0)%Z && Py.contains DEFAULT_MARKER (stdout result)
       then
         rest <- index (Py.split DEFAULT_MARKER (stdout result)) 1 ;;
         ret (Some (Py.strip rest))
       else ret None)
      (fun _ => ret None).

(** *** [print_image] *)

Definition lp_command (printer : str) (copies : Z) (image_path : str) : list str :=
  [lit "lp"; lit "-d"; printer; lit "-n"; Py.str_of_int copies]
  ++ flat_map (fun option => [lit "-o"; option]) Config.PRINT_OPTIONS
  ++ [image_path].

Definition print_image (image_path : str) (copies : Z) : M (bool * str * option str) :=
  printer <- get_printer_name ;;
  if negb (truthy printer)
  then ret (false, lit "No printer configured or found", None)
  else
    try_except
      (let cmd := lp_command (text_of printer) copies image_path in
       result <- subprocess_run cmd 30 ;;
       if (returncode result =? 0)%Z
       then
         job_id <- (if Py.contains REQUEST_MARKER (stdout result)
                    then
                      rest <- index (Py.split REQUEST_MARKER (stdout result)) 1 ;;
                      tok <- index (Py.split_ws rest) 0 ;;
                      ret (Some tok)
                    else ret None) ;;
         ret (true, lit "Print job submitted successfully", job_id)
       else ret (false, lit "Print failed: " ++ stderr result, None))
      (fun e =>
         match e with
         | TimeoutExpired _ _ => ret (false, lit "Print command timed out", None)
         | _ => ret (false, lit "Print error: " ++ exn_str e, None)
         end).

(** *** [health_check] *)

Definition health_check (req : request) : M response :=
  printer <- get_printer_name ;;
  ret (jsonify [(lit "status", JStr (lit "ok"));
                (lit "printer", json_opt_str printer);
                (lit "printer_configured",
                 JBool (match printer with Some _ => true | None => false end))],
       200%Z).

(** *** [print_endpoint] *)

Definition clamp_copies (n : Z) : Z := Z.max 1 (Z.min n Config.MAX_COPIES).

(** The [try: int(...); max(...)  except ValueError: copies = 1] block. *)
Definition requested_copies (req : request) : Z :=
  let v := match form req (lit "copies") with
           | Some s => FormText s
           | None => FormDefault 1
           end in
  match int_of v with
  | Some copies => clamp_copies copies
  | None => 1%Z
  end.

Definition print_endpoint (req : request) : M response :=
  load_form_data req ;;;
  match files req (lit "image") with
  | None => ret (jsonify [(lit "error", JStr (lit "No image file provided"))], 400%Z)
  | Some file =>
      if str_eqb (filename file) []
      then ret (jsonify [(lit "error", JStr (lit "No file selected"))], 400%Z)
      else if negb (allowed_file (filename file))
      then ret (jsonify
                  [(lit "error",
                    JStr (lit "File type not allowed. Allowed types: "
                          ++ Py.join (lit ", ") (set_order P ALLOWED_EXTENSIONS)))],
                400%Z)
      else
        let copies := requested_copies req in
        let filename := secure_filename P (filename file) in
        temp_path <- (tmp <- NamedTemporaryFile (snd (Py.splitext filename)) ;;
                      save file tmp ;;;
                      ret tmp) ;;
        try_finally
          (r <- print_image temp_path copies ;;
           let '(success, message, job_id) := r in
           if success : bool
           then ret (jsonify [(lit "success", JBool true);
                              (lit "message", JStr message);
                              (lit "job_id", json_opt_str job_id);
                              (lit "copies", JInt copies)],
                     200%Z)
           else ret (jsonify [(lit "success", JBool false);
                              (lit "error", JStr message)],
                     500%Z))
          (try_except (os_unlink temp_path) (fun _ => ret tt))
  end.

(** *** [list_printers] *)

(** One round of the loop over the output lines. *)
Definition scan_line (st : list str * option str) (line : str)
  : M (list str * option str) :=
  let '(printers, default_printer) := st in
  if Py.startswith line (lit "printer ")
  then
    let parts := Py.split_ws line in
    if (2 <=? List.length parts)%nat
    then name <- index parts 1 ;; ret (printers ++ [name], default_printer)
    else ret st
  else if Py.contains DEFAULT_MARKER line
  then rest <- index (Py.split DEFAULT_MARKER line) 1 ;;
       ret (printers, Some (Py.strip rest))
  else ret st.

Fixpoint for_each {S A} (body : S -> A -> M S) (st : S) (l : list A) : M S :=
  match l with
  | [] => ret st
  | x :: l' => st' <- body st x ;; for_each body st' l'
  end.

Definition list_printers (req : request) : M response :=
  try_except
    (result <- subprocess_run [lit "lpstat"; lit "-p"; lit "-d"] 10 ;;
     st <- for_each scan_line ([], None) (Py.split NEWLINE (stdout result)) ;;
     let '(printers, default_printer) := st in
     ret (jsonify [(lit "printers", JList (map JStr printers));
                   (lit "default", json_opt_str default_printer);
                   (lit "configured", JStr PRINTER_NAME)],
          200%Z))
    (fun e => ret (jsonify [(lit "error", JStr (exn_str e))], 500%Z)).

(** *** Routing *)

Definition view (r : route) : request -> M response :=
  match r with
  | GET_health => health_check
  | POST_print => require_api_key print_endpoint
  | GET_printers => require_api_key list_printers
  end.

(** The framework turns an HTTP exception into the response it
    stands for and answers 500 when a view raises anything else. *)
Definition error_response (e : exn) : response :=
  match e with
  | RequestEntityTooLarge => (JStr (lit "Request Entity Too Large"), 413%Z)
  | _ => (JStr (lit "Internal Server Error"), 500%Z)
  end.

Definition serve (r : route) (req : request) (w : world) : response * world :=
  match view r req w with
  | (Return resp, w') => (resp, w')
  | (Raise e, w') => (error_response e, w')
  end.

End Server.

(** ** Sample surroundings, used to run the model *)

Module Sample.

Definition dict {A} (l : list (str * A)) : str -> option A :=
  fun k => option_map snd (find (fun kv => str_eqb (fst kv) k) l).

Definition secret : str := lit "s3cret".

(** An environment with a key and no pinned printer. *)
Definition environ : str -> option str :=
  dict [(lit "PRINT_API_KEY", secret)].

(** The same with the printer pinned. *)
Definition environ_pinned : str -> option str :=
  dict [(lit "PRINT_API_KEY", secret); (lit "PRINTER_NAME", lit "PR1")].

Definition line (s : string) : str := lit s ++ NEWLINE.

Definition lpstat_d_output : str := line "system default destination: PR1".

Definition lpstat_p_d_output : str :=
  line "printer PR1 is idle.  enabled since Mon 01 Jan 2024"
  ++ line "printer Office disabled since Tue 02 Jan 2024 -"
  ++ line "printer PR1 is idle.  enabled since Mon 01 Jan 2024"
  ++ line "system default destination: PR1".

Definition is_lp (argv : list str) : bool :=
  match argv with
  | cmd :: _ => str_eqb cmd (lit "lp")
  | [] => false
  end.

(** A platform whose spooler answers [lp] with [lp_result]. *)
Definition platform_with (lp_result : run_result) (save_result unlink_result : option str)
  : platform :=
  {| run_child := fun argv =>
       if is_lp argv then lp_result
       else if list_eq_dec str_eq_dec argv [lit "lpstat"; lit "-d"]
       then Completed 0 lpstat_d_output []
       else Completed 0 lpstat_p_d_output [];
     secure_filename := fun s => s;
     mkstemp := fun suffix => inl (lit "/tmp/tmpab12cd" ++ suffix);
     file_save := fun _ => save_result;
     unlink_error := fun _ => unlink_result;
     set_order := fun l => l |}.

(** A platform on which every child process ends as [r]. *)
Definition platform_always (r : run_result) : platform :=
  {| run_child := fun _ => r;
     secure_filename := fun s => s;
     mkstemp := fun suffix => inl (lit "/tmp/tmpab12cd" ++ suffix);
     file_save := fun _ => None;
     unlink_error := fun _ => None;
     set_order := fun l => l |}.

Definition lp_ok : run_result :=
  Completed 0 (line "request id is PR1-42 (1 file(s))") [].

Definition healthy : platform := platform_with lp_ok None None.

Definition upload (name : string) : str -> option FileStorage :=
  dict [(lit "image", {| filename := lit name; stream := lit "..." |})].

Definition req (key : option str) (name : string) (copies : option str) : request :=
  {| headers := dict (match key with Some k => [(lit "X-API-Key", k)] | None => [] end);
     content_length := 2048;
     uploads := upload name;
     fields := dict (match copies with Some c => [(lit "copies", c)] | None => [] end) |}.

(** A request whose body is one byte over the limit. *)
Definition big_req (key : option str) (name : string) : request :=
  {| headers := dict (match key with Some k => [(lit "X-API-Key", k)] | None => [] end);
     content_length := Config.MAX_CONTENT_LENGTH + 1;
     uploads := upload name;
     fields := dict [] |}.

End Sample.

(** ** Summaries

    Pure descriptions of what the helpers and the views compute, the
    predicates the statements below are written with, and the readings
    of the specification's wording.  Each description is proved equal
    to the result of the code it summarises ([get_printer_name_run],
    [print_image_run], [print_endpoint_run], [list_printers_run],
    [allowed_file_spec]). *)

Section Gateway.

Variable environ : str -> option str.
Variable P : platform.

(** The claim's reading of "has an allow-listed extension": the text
    after the final period, lower-cased, is one of the six names. *)
Definition has_allowed_extension (name : str) : Prop :=
  exists stem ext,
    name = stem ++ lit "." ++ ext
    /\ ~ In "."%char ext
    /\ In (Py.lower ext) ALLOWED_EXTENSIONS.

(** A request that carries the configured key, in a deployment whose
    key is a non-empty ASCII text. *)
Definition authenticated (req : request) : Prop :=
  headers req (lit "X-API-Key") = Some (Config.API_KEY environ)
  /\ Config.API_KEY environ <> []
  /\ forallb is_ascii_char (Config.API_KEY environ) = true.

Definition guarded (r : route) : Prop := r = POST_print \/ r = GET_printers.

Definition missing_key : response :=
  (jsonify [(lit "error", JStr (lit "Missing API key"))], 401%Z).

Definition invalid_key : response :=
  (jsonify [(lit "error", JStr (lit "Invalid API key"))], 403%Z).

Definition LPSTAT_D : list str := [lit "lpstat"; lit "-d"].
Definition LPSTAT_P_D : list str := [lit "lpstat"; lit "-p"; lit "-d"].

(** The world after starting the processes [argvs]. *)
Definition log (w : world) (argvs : list (list str)) : world :=
  {| disk := disk w; spawned := spawned w ++ argvs |}.

Definition pinned : bool := truthy (Some (Config.PRINTER_NAME environ)).

(** The default destination read off an [lpstat -d] run. *)
Definition default_of (r : run_result) : option str :=
  match r with
  | Completed rc out _ =>
      if (rc =? 0)%Z && Py.contains DEFAULT_MARKER out
      then Some (Py.strip (nth 1 (Py.split DEFAULT_MARKER out) []))
      else None
  | _ => None
  end.

Definition resolved_printer : option str :=
  if pinned then Some (Config.PRINTER_NAME environ)
  else default_of (run_child P LPSTAT_D).

Definition printer_lookup : list (list str) :=
  if pinned then [] else [LPSTAT_D].

Definition SUBMITTED : str := lit "Print job submitted successfully".
Definition OUT_OF_RANGE : str := lit "list index out of range".

(** The job identifier read off the spooler's standard output, or the
    failure to read one. *)
Definition job_id_of (out : str) : option str + exn :=
  if Py.contains REQUEST_MARKER out
  then match Py.split_ws (nth 1 (Py.split REQUEST_MARKER out) []) with
       | tok :: _ => inl (Some tok)
       | [] => inr (IndexError OUT_OF_RANGE)
       end
  else inl None.

(** The triple [print_image] returns for an [lp] run. *)
Definition job_result (r : run_result) : bool * str * option str :=
  match r with
  | Completed rc out err =>
      if (rc =? 0)%Z
      then match job_id_of out with
           | inl job_id => (true, SUBMITTED, job_id)
           | inr e => (false, lit "Print error: " ++ exn_str e, None)
           end
      else (false, lit "Print failed: " ++ err, None)
  | TimedOut => (false, lit "Print command timed out", None)
  | SpawnError msg => (false, lit "Print error: " ++ msg, None)
  end.

Definition submission (image_path : str) (copies : Z)
  : (bool * str * option str) * list (list str) :=
  if truthy resolved_printer
  then let cmd := lp_command (text_of resolved_printer) copies image_path in
       (job_result (run_child P cmd), [cmd])
  else ((false, lit "No printer configured or found", None), []).

Definition temp_suffix (file : FileStorage) : str :=
  snd (Py.splitext (secure_filename P (filename file))).

(** The world once the temporary file [path] exists. *)
Definition created (path : str) (w : world) : world :=
  {| disk := path :: disk w; spawned := spawned w |}.

(** The world after the [finally] block tried to remove [path]. *)
Definition cleaned (path : str) (w : world) : world :=
  match unlink_error P path with
  | None => {| disk := remove str_eq_dec path (disk w); spawned := spawned w |}
  | Some _ => w
  end.

(** The response built from [print_image]'s triple. *)
Definition answer (r : bool * str * option str) (copies : Z) : response :=
  let '(success, message, job_id) := r in
  if success : bool
  then (jsonify [(lit "success", JBool true);
                 (lit "message", JStr message);
                 (lit "job_id", json_opt_str job_id);
                 (lit "copies", JInt copies)], 200%Z)
  else (jsonify [(lit "success", JBool false);
                 (lit "error", JStr message)], 500%Z).

Definition printer_line (line : str) : bool := Py.startswith line (lit "printer ").

Definition default_line (line : str) : bool :=
  negb (printer_line line) && Py.contains DEFAULT_MARKER line.

(** The second word of every printer line that has one, in order. *)
Definition printer_names (lines : list str) : list str :=
  flat_map (fun line =>
              if printer_line line
              then match nth_error (Py.split_ws line) 1 with
                   | Some name => [name]
                   | None => []
                   end
              else []) lines.

Definition parse_default (line : str) : option str :=
  Some (Py.strip (nth 1 (Py.split DEFAULT_MARKER line) [])).

(** The destination named by the last default-destination line. *)
Definition default_destination (lines : list str) : option str :=
  last (map parse_default (filter default_line lines)) None.

Definition printers_answer (r : run_result) : response :=
  match r with
  | Completed _ out _ =>
      let lines := Py.split NEWLINE out in
      (jsonify [(lit "printers", JList (map JStr (printer_names lines)));
                (lit "default", json_opt_str (default_destination lines));
                (lit "configured", JStr (Config.PRINTER_NAME environ))], 200%Z)
  | TimedOut =>
      (jsonify [(lit "error", JStr (exn_str (TimeoutExpired LPSTAT_P_D 10)))], 500%Z)
  | SpawnError msg => (jsonify [(lit "error", JStr msg)], 500%Z)
  end.

Definition is_space (c : ascii) : Prop := Py.isspace c = true.
Definition not_space (c : ascii) : Prop := Py.isspace c = false.

(** A text is trimmed on the left when it is empty or starts with a
    character that is not whitespace. *)
Definition trimmed (s : str) : Prop :=
  s = [] \/ exists c t, s = c :: t /\ not_space c.

(** ** The model at work *)

Example split_demo :
  Py.split (lit ",") (lit "a,b,,c,") = [lit "a"; lit "b"; lit ""; lit "c"; lit ""].
Proof. reflexivity. Qed.

Example rsplit1_demo :
  Py.rsplit1 (lit ".") (lit "a.tar.GZ") = [lit "a.tar"; lit "GZ"].
Proof. reflexivity. Qed.

Example split_ws_demo :
  Py.split_ws (lit "  PR1-42 (1 file(s))  ") = [lit "PR1-42"; lit "(1"; lit "file(s))"].
Proof. reflexivity. Qed.

Example int_demo :
  map Py.int [lit " 12 "; lit "-3"; lit "+1_000"; lit "1__0"; lit "abc"; lit ""; lit "007"]
  = [Some 12%Z; Some (-3)%Z; Some 1000%Z; None; None; None; Some 7%Z].
Proof. reflexivity. Qed.

Example splitext_demo :
  map Py.splitext [lit "photo.png"; lit ".bashrc"; lit "a/b.c/d"; lit "x..y"]
  = [(lit "photo", lit ".png"); (lit ".bashrc", lit ""); (lit "a/b.c/d", lit "");
     (lit "x.", lit ".y")].
Proof. reflexivity. Qed.

Example str_of_int_demo :
  map Py.str_of_int [0%Z; 7%Z; 10%Z; (-4)%Z] = [lit "0"; lit "7"; lit "10"; lit "-4"].
Proof. reflexivity. Qed.

Example allowed_file_demo :
  map allowed_file [lit "a.PNG"; lit "a.png.exe"; lit "png"; lit "pic.b.JpEg"; lit ".gif"; lit "a."]
  = [true; false; false; true; true; false].
Proof. reflexivity. Qed.

Example serve_print_demo :
  serve Sample.environ Sample.healthy POST_print
        (Sample.req (Some Sample.secret) "cat.PNG" (Some (lit "3"))) empty_world
  = ((jsonify [(lit "success", JBool true);
               (lit "message", JStr (lit "Print job submitted successfully"));
               (lit "job_id", JStr (lit "PR1-42"));
               (lit "copies", JInt 3)], 200%Z),
     {| disk := [];
        spawned := [[lit "lpstat"; lit "-d"];
                    [lit "lp"; lit "-d"; lit "PR1"; lit "-n"; lit "3";
                     lit "-o"; lit "fit-to-page"; lit "-o"; lit "media=A4.Borderless";
                     lit "/tmp/tmpab12cd.PNG"]] |}).
Proof. vm_compute. reflexivity. Qed.

Example serve_printers_demo :
  serve Sample.environ_pinned Sample.healthy GET_printers
        (Sample.req (Some Sample.secret) "" None) empty_world
  = ((jsonify [(lit "printers", JList [JStr (lit "PR1"); JStr (lit "Office"); JStr (lit "PR1")]);
               (lit "default", JStr (lit "PR1"));
               (lit "configured", JStr (lit "PR1"))], 200%Z),
     {| disk := []; spawned := [[lit "lpstat"; lit "-p"; lit "-d"]] |}).
Proof. vm_compute. reflexivity. Qed.

Example serve_health_demo :
  serve Sample.environ Sample.healthy GET_health
        (Sample.req None "" None) empty_world
  = ((jsonify [(lit "status", JStr (lit "ok"));
               (lit "printer", JStr (lit "PR1"));
               (lit "printer_configured", JBool true)], 200%Z),
     {| disk := []; spawned := [[lit "lpstat"; lit "-d"]] |}).
Proof. vm_compute. reflexivity. Qed.

(** ** Facts about the text operations *)

Lemma strip_prefix_sound p : forall s r,
  Py.strip_prefix p s = Some r -> s = p ++ r.
Proof.
  induction p as [|a p IH]; intros [|b s] r H; simpl in H;
    try discriminate; try (inversion H; reflexivity).
  destruct (Ascii.eqb_spec a b) as [->|]; [|discriminate].
  simpl. f_equal. now apply IH.
Qed.

Lemma strip_prefix_app p r : Py.strip_prefix p (p ++ r) = Some r.
Proof.
  induction p as [|a p IH]; simpl.
  - now destruct r.
  - now rewrite Ascii.eqb_refl.
Qed.

Lemma partition_sound sep : forall s a b,
  Py.partition sep s = Some (a, b) -> s = a ++ sep ++ b.
Proof.
  induction s as [|c s IH]; intros a b H.
  - cbn [Py.partition] in H.
    destruct (Py.strip_prefix sep []) eqn:E; [|discriminate].
    inversion H; subst. simpl. now apply strip_prefix_sound.
  - cbn [Py.partition] in H.
    destruct (Py.strip_prefix sep (c :: s)) eqn:E.
    + inversion H; subst. simpl. now apply strip_prefix_sound.
    + destruct (Py.partition sep s) as [[a' b']|] eqn:E'; [|discriminate].
      inversion H; subst. simpl. f_equal. now apply IH.
Qed.

Lemma partition_contains sep : forall s,
  Py.contains sep s = match Py.partition sep s with Some _ => true | None => false end.
Proof.
  induction s as [|c s IH]; cbn [Py.contains Py.partition].
  - now destruct (Py.strip_prefix sep []).
  - destruct (Py.strip_prefix sep (c :: s)); [reflexivity|].
    rewrite IH. now destruct (Py.partition sep s) as [[? ?]|].
Qed.

Lemma contains_app sub : forall a b, Py.contains sub (a ++ sub ++ b) = true.
Proof.
  induction a as [|c a IH]; intros b.
  - simpl app. destruct (sub ++ b) eqn:E; cbn [Py.contains];
      rewrite <- E, strip_prefix_app; reflexivity.
  - simpl app. cbn [Py.contains].
    destruct (Py.strip_prefix sub (c :: a ++ sub ++ b)); [reflexivity|apply IH].
Qed.


(** The remainder after a cut is shorter than the text. *)
Lemma partition_shorter sep s a b :
  sep <> [] -> Py.partition sep s = Some (a, b) -> (List.length b < List.length s)%nat.
Proof.
  intros Hsep H. apply partition_sound in H. subst s.
  rewrite !length_app. destruct sep; [congruence|]. simpl. lia.
Qed.

Lemma partition_nil sep : sep <> [] -> Py.partition sep [] = None.
Proof.
  intros Hsep. destruct (Py.partition sep []) as [[a b]|] eqn:E; [|reflexivity].
  apply partition_shorter in E; [simpl in E; lia|assumption].
Qed.

Lemma split_fuel_enough sep : sep <> [] -> forall n m s,
  (List.length s <= n)%nat -> (List.length s <= m)%nat ->
  Py.split_fuel n sep s = Py.split_fuel m sep s.
Proof.
  intros Hsep. induction n as [|n IH]; intros m s Hn Hm.
  - destruct s; [|simpl in Hn; lia].
    destruct m; cbn [Py.split_fuel]; [reflexivity|].
    now rewrite partition_nil.
  - destruct m as [|m]; cbn [Py.split_fuel].
    + destruct s; [|simpl in Hm; lia]. now rewrite partition_nil.
    + destruct (Py.partition sep s) as [[a b]|] eqn:E; [|reflexivity].
      f_equal. pose proof (partition_shorter _ _ _ _ Hsep E). apply IH; lia.
Qed.

(** The equation [split] obeys. *)
Lemma split_eq sep s :
  sep <> [] ->
  Py.split sep s = match Py.partition sep s with
                   | None => [s]
                   | Some (a, b) => a :: Py.split sep b
                   end.
Proof.
  intros Hsep. unfold Py.split.
  destruct s as [|c s].
  - cbn [List.length Py.split_fuel]. now rewrite partition_nil.
  - cbn [List.length Py.split_fuel].
    destruct (Py.partition sep (c :: s)) as [[a b]|] eqn:E; [|reflexivity].
    f_equal. pose proof (partition_shorter _ _ _ _ Hsep E) as L. simpl in L.
    apply split_fuel_enough; [assumption|lia|lia].
Qed.

(** After a successful membership test, element 1 of the split exists. *)
Lemma split_second sep s :
  sep <> [] -> Py.contains sep s = true ->
  exists x, nth_error (Py.split sep s) 1 = Some x.
Proof.
  intros Hsep H. rewrite partition_contains in H.
  rewrite split_eq by assumption.
  destruct (Py.partition sep s) as [[a b]|]; [|discriminate].
  rewrite (split_eq _ b Hsep).
  destruct (Py.partition sep b) as [[a' b']|]; simpl; eauto.
Qed.



(** ** The extension allow-list *)

Lemma partition_char_before c : forall s a b,
  Py.partition [c] s = Some (a, b) -> ~ In c a.
Proof.
  induction s as [|x s IH]; intros a b H; cbn in H; [discriminate|].
  destruct (Ascii.eqb_spec c x) as [->|Hne].
  - destruct s; inversion H; subst; intros [].
  - destruct (Py.partition [c] s) as [[a' b']|] eqn:E; [|discriminate].
    inversion H; subst. intros [Hx|Hin].
    + now apply Hne.
    + now apply (IH a' b).
Qed.

Lemma partition_char_app c : forall a b,
  ~ In c a -> Py.partition [c] (a ++ c :: b) = Some (a, b).
Proof.
  induction a as [|x a IH]; intros b Hnot.
  - cbn. rewrite Ascii.eqb_refl. now destruct b.
  - simpl app. cbn [Py.partition Py.strip_prefix].
    destruct (Ascii.eqb_spec c x) as [->|Hne].
    + exfalso. apply Hnot. now left.
    + rewrite IH; [reflexivity|]. intros Hin. apply Hnot. now right.
Qed.

Lemma mem_In x l : mem x l = true <-> In x l.
Proof.
  unfold mem. rewrite existsb_exists. split.
  - intros (y & Hy & E). unfold str_eqb in E.
    destruct (str_eq_dec x y); [now subst|discriminate].
  - intros H. exists x. split; [assumption|].
    unfold str_eqb. now destruct (str_eq_dec x x).
Qed.

Lemma allowed_file_spec name :
  allowed_file name = true <-> has_allowed_extension name.
Proof.
  unfold allowed_file, Py.rsplit1, has_allowed_extension. split.
  - intros H. apply andb_true_iff in H as [_ H].
    change (rev (lit ".")) with ["."%char] in H.
    destruct (Py.partition ["."%char] (rev name)) as [[a b]|] eqn:E;
      [|discriminate].
    cbn [nth_error] in H. apply mem_In in H.
    exists (rev b), (rev a). repeat split.
    + apply partition_sound in E.
      rewrite <- (rev_involutive name), E, !rev_app_distr.
      cbn. now rewrite <- app_assoc.
    + rewrite <- in_rev. eapply partition_char_before; eassumption.
    + assumption.
  - intros (stem & ext & -> & Hdot & Hin).
    rewrite contains_app. cbn [andb].
    change (rev (lit ".")) with ["."%char].
    rewrite !rev_app_distr. change (rev (lit ".")) with ["."%char].
    rewrite <- app_assoc. cbn [app].
    rewrite partition_char_app by now rewrite <- in_rev.
    cbn [nth_error]. rewrite rev_involutive. now apply mem_In.
Qed.

(** A name without any period is never accepted. *)
Lemma allowed_file_no_period name :
  ~ In "."%char name -> allowed_file name = false.
Proof.
  intros Hnot. destruct (allowed_file name) eqn:E; [|reflexivity].
  apply allowed_file_spec in E as (stem & ext & -> & _).
  exfalso. apply Hnot. rewrite in_app_iff. right. now left.
Qed.

(** ** The authentication guard *)

Lemma truthy_false_iff o : truthy o = false <-> o = None \/ o = Some [].
Proof.
  destruct o as [[|c s]|]; simpl; split; intros H; auto;
    try discriminate; destruct H as [H|H]; discriminate.
Qed.

Lemma guard_falsy f req w :
  truthy (headers req (lit "X-API-Key")) = false ->
  require_api_key environ f req w = (Return missing_key, w).
Proof.
  intros H. unfold require_api_key. now rewrite H.
Qed.

Lemma str_eqb_eq a b : str_eqb a b = true <-> a = b.
Proof.
  unfold str_eqb. destruct (str_eq_dec a b); split; intros; congruence.
Qed.

Lemma str_eqb_refl a : str_eqb a a = true.
Proof. now apply str_eqb_eq. Qed.

Lemma guard_pass f req w :
  authenticated req ->
  require_api_key environ f req w = f req w.
Proof.
  intros (Hk & Hne & Hascii). unfold require_api_key. rewrite Hk.
  destruct (Config.API_KEY environ) as [|c k] eqn:E; [congruence|].
  cbn [truthy negb text_of]. unfold bind, compare_digest.
  rewrite Hascii. cbn [andb]. unfold ret. now rewrite str_eqb_refl.
Qed.

Lemma guard_wrong f req w k :
  headers req (lit "X-API-Key") = Some k ->
  k <> [] -> k <> Config.API_KEY environ ->
  forallb is_ascii_char k = true ->
  forallb is_ascii_char (Config.API_KEY environ) = true ->
  require_api_key environ f req w = (Return invalid_key, w).
Proof.
  intros Hk Hne Hdiff Ha Hb. unfold require_api_key. rewrite Hk.
  destruct k as [|c k]; [congruence|].
  cbn [truthy negb text_of]. unfold bind, compare_digest.
  rewrite Ha, Hb. cbn [andb]. unfold ret.
  destruct (str_eqb (c :: k) (Config.API_KEY environ)) eqn:E; [|reflexivity].
  apply str_eqb_eq in E. congruence.
Qed.

(** ** What the helpers compute

    [get_printer_name] and [print_image] never raise and only add to
    the list of started processes; their results are the
    pure functions below. *)

Lemma log_nil w : log w [] = w.
Proof. destruct w. unfold log. simpl. now rewrite app_nil_r. Qed.

Lemma log_log w a b : log (log w a) b = log w (a ++ b).
Proof. unfold log. simpl. now rewrite app_assoc. Qed.

Lemma subprocess_run_eq argv t w :
  subprocess_run P argv t w =
  (match run_child P argv with
   | Completed rc out err =>
       Return {| returncode := rc; stdout := out; stderr := err |}
   | TimedOut => Raise (TimeoutExpired argv t)
   | SpawnError msg => Raise (OSError msg)
   end, log w [argv]).
Proof.
  unfold subprocess_run, log. now destruct (run_child P argv).
Qed.

Lemma marker_nonempty : DEFAULT_MARKER <> [] /\ REQUEST_MARKER <> [] /\ NEWLINE <> [].
Proof. repeat split; discriminate. Qed.

Lemma get_printer_name_run w :
  get_printer_name environ P w = (Return resolved_printer, log w printer_lookup).
Proof.
  unfold get_printer_name, resolved_printer, printer_lookup, pinned.
  destruct (truthy (Some (Config.PRINTER_NAME environ))).
  - unfold ret. now rewrite log_nil.
  - unfold try_except, bind. rewrite subprocess_run_eq. fold LPSTAT_D.
    destruct (run_child P LPSTAT_D) as [rc out err| |msg]; try reflexivity.
    cbn [returncode stdout default_of].
    destruct ((rc =? 0)%Z && Py.contains DEFAULT_MARKER out) eqn:E;
      [|reflexivity].
    apply andb_true_iff in E as [_ E].
    destruct (split_second DEFAULT_MARKER out (proj1 marker_nonempty) E)
      as [x Hx].
    unfold index. rewrite Hx. unfold ret.
    now rewrite (nth_error_nth _ _ _ Hx).
Qed.

Lemma print_image_run image_path copies w :
  print_image environ P image_path copies w =
  (Return (fst (submission image_path copies)),
   log w (printer_lookup ++ snd (submission image_path copies))).
Proof.
  unfold print_image, submission, bind at 1. rewrite get_printer_name_run.
  destruct (truthy resolved_printer).
  - cbn [negb fst snd]. unfold try_except, bind at 1.
    rewrite subprocess_run_eq, log_log.
    destruct (run_child P _) as [rc out err| |msg]; try reflexivity.
    cbn [returncode stdout stderr job_result].
    destruct (rc =? 0)%Z; [|reflexivity].
    unfold job_id_of, bind at 1.
    destruct (Py.contains REQUEST_MARKER out) eqn:E; [|reflexivity].
    destruct (split_second REQUEST_MARKER out
                (proj1 (proj2 marker_nonempty)) E) as [x Hx].
    unfold bind at 1. unfold index at 1. rewrite Hx.
    rewrite (nth_error_nth _ _ _ Hx). unfold ret at 1.
    unfold bind, index.
    destruct (Py.split_ws x); reflexivity.
  - cbn [negb fst snd]. unfold ret. now rewrite app_nil_r.
Qed.

(** ** What the views compute *)

(** *** [/print] *)

Lemma answer_status r copies :
  status (answer r copies) = if fst (fst r) then 200%Z else 500%Z.
Proof. destruct r as [[[|] m] j]; reflexivity. Qed.

Lemma cleanup_run path w :
  try_except (os_unlink P path) (fun _ => ret tt) w = (Return tt, cleaned path w).
Proof.
  unfold try_except, os_unlink, cleaned.
  now destruct (unlink_error P path).
Qed.

Lemma files_readable req key file :
  files req key = Some file -> too_large req = false.
Proof. unfold files. now destruct (too_large req). Qed.

Lemma load_then {A} req (k : unit -> M A) w :
  too_large req = false -> bind (load_form_data req) k w = k tt w.
Proof. intros H. unfold bind, load_form_data. now rewrite H. Qed.

(** A body over the limit stops the view at its first line. *)
Lemma print_endpoint_too_large req w :
  too_large req = true ->
  print_endpoint environ P req w = (Raise RequestEntityTooLarge, w).
Proof.
  intros H. unfold print_endpoint, bind at 1, load_form_data. now rewrite H.
Qed.

Lemma print_endpoint_no_image req w :
  too_large req = false ->
  files req (lit "image") = None ->
  print_endpoint environ P req w =
  (Return (jsonify [(lit "error", JStr (lit "No image file provided"))], 400%Z), w).
Proof.
  intros Hl H. unfold print_endpoint. rewrite (load_then req _ w Hl).
  now rewrite H.
Qed.

(** A file whose name fails [allowed_file] is turned away before any
    effect. *)
Lemma print_endpoint_rejects req w file :
  files req (lit "image") = Some file ->
  allowed_file (filename file) = false ->
  exists message,
    print_endpoint environ P req w =
    (Return (jsonify [(lit "error", JStr message)], 400%Z), w).
Proof.
  intros Hf Ha. unfold print_endpoint.
  rewrite (load_then req _ w (files_readable _ _ _ Hf)). cbv beta. rewrite Hf, Ha.
  destruct (str_eqb (filename file) []); eexists; reflexivity.
Qed.

Lemma allowed_file_nonempty name :
  allowed_file name = true -> str_eqb name [] = false.
Proof.
  intros H. destruct name; [discriminate H|].
  unfold str_eqb. now destruct (str_eq_dec (a :: name) []).
Qed.

Lemma print_endpoint_mkstemp_fails req w file msg :
  files req (lit "image") = Some file ->
  allowed_file (filename file) = true ->
  mkstemp P (temp_suffix file) = inr msg ->
  print_endpoint environ P req w = (Raise (OSError msg), w).
Proof.
  intros Hf Ha Hm. unfold print_endpoint.
  rewrite (load_then req _ w (files_readable _ _ _ Hf)). cbv beta.
  rewrite Hf, Ha, (allowed_file_nonempty _ Ha). cbn [negb].
  unfold bind, NamedTemporaryFile. fold (temp_suffix file). now rewrite Hm.
Qed.

(** When writing the upload fails, the exception leaves the view with
    the temporary file still on disk. *)
Lemma print_endpoint_save_fails req w file path msg :
  files req (lit "image") = Some file ->
  allowed_file (filename file) = true ->
  mkstemp P (temp_suffix file) = inl path ->
  file_save P path = Some msg ->
  print_endpoint environ P req w = (Raise (OSError msg), created path w).
Proof.
  intros Hf Ha Hm Hs. unfold print_endpoint.
  rewrite (load_then req _ w (files_readable _ _ _ Hf)). cbv beta.
  rewrite Hf, Ha, (allowed_file_nonempty _ Ha). cbn [negb].
  unfold bind, NamedTemporaryFile, save. fold (temp_suffix file).
  rewrite Hm, Hs. reflexivity.
Qed.

(** Once the upload is stored, the view answers from [print_image]'s
    triple and runs the clean-up last. *)
Lemma print_endpoint_run req w file path :
  files req (lit "image") = Some file ->
  allowed_file (filename file) = true ->
  mkstemp P (temp_suffix file) = inl path ->
  file_save P path = None ->
  let copies := requested_copies req in
  let sub := submission path copies in
  print_endpoint environ P req w =
  (Return (answer (fst sub) copies),
   cleaned path (log (created path w) (printer_lookup ++ snd sub))).
Proof.
  intros Hf Ha Hm Hs copies sub. unfold print_endpoint.
  rewrite (load_then req _ w (files_readable _ _ _ Hf)). cbv beta.
  rewrite Hf, Ha, (allowed_file_nonempty _ Ha). cbn [negb].
  unfold bind at 1. unfold bind at 1. unfold NamedTemporaryFile at 1.
  fold (temp_suffix file). rewrite Hm.
  unfold bind at 1. unfold save. rewrite Hs. unfold ret at 1. unfold ret at 1.
  unfold try_finally, bind at 1. rewrite print_image_run.
  fold copies. fold sub.
  cbv beta iota. unfold answer.
  destruct (fst sub) as [[[|] m] j]; unfold ret at 1; cbv beta iota;
    rewrite cleanup_run; reflexivity.
Qed.

(** Every response the view returns carries status 400, 200 or 500; a
    body over the size limit leaves it as the 413 exception instead
    ([print_endpoint_too_large]). *)
Lemma print_endpoint_status req w resp w' :
  print_endpoint environ P req w = (Return resp, w') ->
  status resp = 400%Z \/ status resp = 200%Z \/ status resp = 500%Z.
Proof.
  intros H.
  destruct (too_large req) eqn:Hl;
    [rewrite (print_endpoint_too_large _ _ Hl) in H; discriminate|].
  destruct (files req (lit "image")) as [file|] eqn:Hf.
  - destruct (allowed_file (filename file)) eqn:Ha.
    + destruct (mkstemp P (temp_suffix file)) as [path|msg] eqn:Hm.
      * destruct (file_save P path) as [msg|] eqn:Hs.
        -- rewrite (print_endpoint_save_fails _ _ _ _ _ Hf Ha Hm Hs) in H.
           discriminate.
        -- rewrite (print_endpoint_run _ w _ _ Hf Ha Hm Hs) in H.
           inversion H; subst. rewrite answer_status.
           destruct (fst (fst _)); auto.
      * rewrite (print_endpoint_mkstemp_fails _ _ _ _ Hf Ha Hm) in H.
        discriminate.
    + destruct (print_endpoint_rejects _ w _ Hf Ha) as [m Hm].
      rewrite Hm in H. inversion H; subst. now left.
  - rewrite (print_endpoint_no_image _ _ Hl Hf) in H.
    inversion H; subst. now left.
Qed.

(** *** [/printers] *)

Lemma last_cons {A} (x : A) l d : last (x :: l) d = last l x.
Proof.
  revert x d. induction l as [|y l IH]; intros x d; [reflexivity|].
  change (last (x :: y :: l) d) with (last (y :: l) d).
  now rewrite !IH.
Qed.

Lemma scan_lines_run lines : forall printers default_printer w,
  for_each scan_line (printers, default_printer) lines w =
  (Return (printers ++ printer_names lines,
           last (map parse_default (filter default_line lines)) default_printer),
   w).
Proof.
  induction lines as [|line lines IH]; intros printers d w.
  - cbn. unfold ret. now rewrite app_nil_r.
  - cbn [for_each]. unfold bind at 1. unfold scan_line.
    cbn [printer_names flat_map filter]. unfold default_line.
    fold (printer_line line). destruct (printer_line line).
    + cbn [negb andb].
      destruct (Py.split_ws line) as [|a [|b parts]]; cbn [List.length Nat.leb];
        try (unfold ret at 1; rewrite IH; reflexivity).
      unfold bind at 1, index, ret at 1. cbn [nth_error]. unfold ret at 1.
      rewrite IH. cbn [app]. now rewrite <- app_assoc.
    + cbn [negb andb app].
      destruct (Py.contains DEFAULT_MARKER line) eqn:E.
      * destruct (split_second DEFAULT_MARKER line (proj1 marker_nonempty) E)
          as [x Hx].
        unfold bind at 1, index. rewrite Hx. unfold ret at 1. unfold ret at 1.
        rewrite IH. cbn [map]. rewrite last_cons.
        replace (parse_default line) with (Some (Py.strip x)); [reflexivity|].
        unfold parse_default. now rewrite (nth_error_nth _ _ _ Hx).
      * unfold ret at 1. now rewrite IH.
Qed.

Lemma list_printers_run req w :
  list_printers environ P req w =
  (Return (printers_answer (run_child P LPSTAT_P_D)), log w [LPSTAT_P_D]).
Proof.
  unfold list_printers, try_except, bind at 1.
  rewrite subprocess_run_eq. fold LPSTAT_P_D.
  destruct (run_child P LPSTAT_P_D) as [rc out err| |msg]; try reflexivity.
  cbn [stdout]. unfold bind. rewrite scan_lines_run. reflexivity.
Qed.

End Gateway.

(** ** Authentication (claims C3 and C10) *)

Lemma guard_cases environ f req w :
  require_api_key environ f req w = (Return missing_key, w)
  \/ require_api_key environ f req w = (Return invalid_key, w)
  \/ (exists m, require_api_key environ f req w = (Raise (TypeError m), w))
  \/ require_api_key environ f req w = f req w.
Proof.
  unfold require_api_key.
  destruct (truthy (headers req (lit "X-API-Key"))); cbn [negb]; [|now left].
  unfold bind, compare_digest.
  destruct (forallb is_ascii_char _ && forallb is_ascii_char _).
  - unfold ret at 1. destruct (str_eqb _ _); cbn [negb]; auto.
  - right. right. left. eexists. reflexivity.
Qed.

(** With the configured key in the header, the guard either hands over
    to the view or stops on the comparison's [TypeError]. *)
Lemma guard_same environ f req w k :
  headers req (lit "X-API-Key") = Some k ->
  k <> [] -> k = Config.API_KEY environ ->
  require_api_key environ f req w = f req w
  \/ exists m, require_api_key environ f req w = (Raise (TypeError m), w).
Proof.
  intros Hk Hne He. unfold require_api_key. rewrite Hk, <- He.
  destruct k as [|c k]; [congruence|]. cbn [truthy negb text_of].
  unfold bind, compare_digest.
  destruct (forallb is_ascii_char (c :: k) && forallb is_ascii_char (c :: k)).
  - left. unfold ret at 1. now rewrite str_eqb_refl.
  - right. eexists. reflexivity.
Qed.

Lemma list_printers_status environ P req w resp w' :
  list_printers environ P req w = (Return resp, w') ->
  status resp = 200%Z \/ status resp = 500%Z.
Proof.
  rewrite list_printers_run. intros H. inversion H; subst.
  destruct (run_child P LPSTAT_P_D); cbn; auto.
Qed.

Lemma serve_guarded environ P r req :
  guarded r ->
  exists f,
    view environ P r = require_api_key environ f
    /\ forall w0 resp w1, f req w0 = (Return resp, w1) ->
                          status resp <> 401%Z /\ status resp <> 403%Z.
Proof.
  intros [-> | ->].
  - exists (print_endpoint environ P). split; [reflexivity|].
    intros w0 resp w1 H. apply print_endpoint_status in H. lia.
  - exists (list_printers environ P). split; [reflexivity|].
    intros w0 resp w1 H. apply list_printers_status in H. lia.
Qed.

(** C10: on [POST /print] and [GET /printers], a request whose
    [X-API-Key] header is present with the empty text as value is
    answered 401 "Missing API key", exactly like a request without the
    header, and never 403; nothing else happens. *)
Theorem empty_api_key_counts_as_missing environ P r req w :
  guarded r ->
  headers req (lit "X-API-Key") = Some [] ->
  serve environ P r req w
  = ((jsonify [(lit "error", JStr (lit "Missing API key"))], 401%Z), w)
  /\ status (fst (serve environ P r req w)) <> 403%Z.
Proof.
  intros Hr Hk.
  assert (E : serve environ P r req w = (missing_key, w)).
  { unfold serve.
    destruct Hr as [-> | ->]; cbn [view];
      rewrite guard_falsy by (now rewrite Hk); reflexivity. }
  rewrite E. split; [reflexivity|discriminate].
Qed.

Lemma empty_api_key_counts_as_missing_witness :
  serve Sample.environ Sample.healthy POST_print
        (Sample.req (Some []) "cat.png" None) empty_world
  = ((jsonify [(lit "error", JStr (lit "Missing API key"))], 401%Z), empty_world)
  /\ status (fst (serve Sample.environ Sample.healthy POST_print
                        (Sample.req (Some []) "cat.png" None) empty_world))
     <> 403%Z.
Proof.
  apply empty_api_key_counts_as_missing.
  - left. reflexivity.
  - reflexivity.
Defined.

(** C3, as stated, fails: the header is present, its value differs from
    the configured key, and the answer is 401 rather than 403. *)
Lemma present_wrong_key_answered_401 :
  headers (Sample.req (Some []) "cat.png" None) (lit "X-API-Key") = Some []
  /\ [] <> Config.API_KEY Sample.environ
  /\ status (fst (serve Sample.environ Sample.healthy POST_print
                        (Sample.req (Some []) "cat.png" None) empty_world))
     = 401%Z
  /\ status (fst (serve Sample.environ Sample.healthy POST_print
                        (Sample.req (Some []) "cat.png" None) empty_world))
     <> 403%Z.
Proof.
  repeat split; try reflexivity; vm_compute; discriminate.
Qed.

(** C3 (amended): on [POST /print] and [GET /printers], a request whose
    [X-API-Key] header is absent or empty is answered 401; one whose
    header is non-empty and differs from the configured key, both being
    ASCII text, is answered 403; one whose non-empty header equals the
    configured key is never answered 401 or 403. *)
Theorem auth_guard_status environ P r req w :
  guarded r ->
  let key := headers req (lit "X-API-Key") in
  let st := status (fst (serve environ P r req w)) in
  (key = None \/ key = Some [] -> st = 401%Z)
  /\ (forall k, key = Some k -> k <> [] -> k <> Config.API_KEY environ ->
                forallb is_ascii_char k = true ->
                forallb is_ascii_char (Config.API_KEY environ) = true ->
                st = 403%Z)
  /\ (forall k, key = Some k -> k <> [] -> k = Config.API_KEY environ ->
                st <> 401%Z /\ st <> 403%Z).
Proof.
  intros Hr key st. subst key st.
  destruct (serve_guarded environ P r req Hr) as (f & Hv & Hf).
  unfold serve. rewrite Hv. repeat split.
  - intros H. apply truthy_false_iff in H.
    now rewrite (guard_falsy environ f req w H).
  - intros k Hk Hne Hdiff Ha Hb.
    now rewrite (guard_wrong environ f req w k Hk Hne Hdiff Ha Hb).
  - destruct (guard_same environ f req w k H H0 H1) as [E | [m E]]; rewrite E.
    + destruct (f req w) as [[resp|e] w1] eqn:Ef; cbn; [|destruct e; discriminate].
      now apply (Hf w resp w1).
    + cbn. discriminate.
  - destruct (guard_same environ f req w k H H0 H1) as [E | [m E]]; rewrite E.
    + destruct (f req w) as [[resp|e] w1] eqn:Ef; cbn; [|destruct e; discriminate].
      now apply (Hf w resp w1).
    + cbn. discriminate.
Qed.

Lemma auth_guard_status_witness :
  status (fst (serve Sample.environ Sample.healthy GET_printers
                     (Sample.req (Some (lit "guess")) "" None) empty_world))
  = 403%Z.
Proof.
  apply (proj1 (proj2 (auth_guard_status Sample.environ Sample.healthy
                         GET_printers (Sample.req (Some (lit "guess")) "" None)
                         empty_world (or_intror eq_refl)))
           (lit "guess")).
  - reflexivity.
  - discriminate.
  - vm_compute. discriminate.
  - reflexivity.
  - reflexivity.
Defined.

(** ** Upload validation (claim C4) *)

Lemma serve_authenticated_print environ P req w :
  authenticated environ req ->
  serve environ P POST_print req w =
  match print_endpoint environ P req w with
  | (Return resp, w') => (resp, w')
  | (Raise e, w') => (error_response e, w')
  end.
Proof.
  intros Ha. unfold serve. cbn [view]. now rewrite guard_pass.
Qed.

Lemma too_large_false req :
  too_large req = false <-> (content_length req <= Config.MAX_CONTENT_LENGTH)%Z.
Proof. unfold too_large. apply Z.ltb_ge. Qed.

Lemma too_large_true req :
  too_large req = true <-> (Config.MAX_CONTENT_LENGTH < content_length req)%Z.
Proof. unfold too_large. apply Z.ltb_lt. Qed.

Lemma files_uploads req key :
  too_large req = false -> files req key = uploads req key.
Proof. intros H. unfold files. now rewrite H. Qed.

(** An authenticated request with a body over the limit is answered
    413 and nothing else happens. *)
Lemma serve_too_large environ P req w :
  authenticated environ req ->
  too_large req = true ->
  serve environ P POST_print req w
  = ((JStr (lit "Request Entity Too Large"), 413%Z), w).
Proof.
  intros Ha Hl. rewrite serve_authenticated_print by assumption.
  now rewrite print_endpoint_too_large.
Qed.

(** C4, as stated, fails: the request is authenticated, its uploaded
    file name has no allow-listed extension, and the answer is 413
    rather than 400, because the body is longer than
    [MAX_CONTENT_LENGTH]. *)
Lemma oversized_disallowed_upload_answered_413 :
  authenticated Sample.environ (Sample.big_req (Some Sample.secret) "big.exe")
  /\ uploads (Sample.big_req (Some Sample.secret) "big.exe") (lit "image")
     = Some {| filename := lit "big.exe"; stream := lit "..." |}
  /\ ~ has_allowed_extension (lit "big.exe")
  /\ serve Sample.environ Sample.healthy POST_print
           (Sample.big_req (Some Sample.secret) "big.exe") empty_world
     = ((JStr (lit "Request Entity Too Large"), 413%Z), empty_world).
Proof.
  split; [|split; [|split]].
  - split; [reflexivity|split; [vm_compute; discriminate|reflexivity]].
  - reflexivity.
  - intros H. apply allowed_file_spec in H. vm_compute in H. discriminate.
  - vm_compute. reflexivity.
Qed.

(** C4 (amended): an authenticated [POST /print] whose body is no
    longer than [MAX_CONTENT_LENGTH] and whose uploaded file name has
    no allow-listed extension (the text after the final period,
    compared without regard to case, is none of png, jpg, jpeg, gif,
    bmp, webp; in particular a name without a period) is answered
    with a 400 error body, and the world is left as it was: no child
    process is started, so the spooler is never invoked, and no file
    is created.  With a longer body the answer is 413, and the world
    is left as it was too. *)
Theorem disallowed_extension_rejected environ P req w file :
  authenticated environ req ->
  uploads req (lit "image") = Some file ->
  ~ has_allowed_extension (filename file) ->
  ((content_length req <= Config.MAX_CONTENT_LENGTH)%Z ->
   exists message,
     serve environ P POST_print req w
     = ((jsonify [(lit "error", JStr message)], 400%Z), w))
  /\ ((Config.MAX_CONTENT_LENGTH < content_length req)%Z ->
      serve environ P POST_print req w
      = ((JStr (lit "Request Entity Too Large"), 413%Z), w)).
Proof.
  intros Ha Hf Hext. split.
  - intros Hsize. apply too_large_false in Hsize.
    rewrite <- (files_uploads req _ Hsize) in Hf.
    assert (Hno : allowed_file (filename file) = false).
    { destruct (allowed_file (filename file)) eqn:E; [|reflexivity].
      exfalso. apply Hext. now apply allowed_file_spec. }
    destruct (print_endpoint_rejects environ P req w file Hf Hno) as [m Hm].
    exists m. rewrite serve_authenticated_print by assumption. now rewrite Hm.
  - intros Hsize. apply too_large_true in Hsize. now apply serve_too_large.
Qed.

Lemma disallowed_extension_rejected_witness :
  exists message,
    serve Sample.environ Sample.healthy POST_print
          (Sample.req (Some Sample.secret) "notes.png.txt" None) empty_world
    = ((jsonify [(lit "error", JStr message)], 400%Z), empty_world).
Proof.
  apply (disallowed_extension_rejected Sample.environ Sample.healthy
           (Sample.req (Some Sample.secret) "notes.png.txt" None) empty_world
           {| filename := lit "notes.png.txt"; stream := lit "..." |}).
  - split; [reflexivity|split; [vm_compute; discriminate|reflexivity]].
  - reflexivity.
  - intros H. apply allowed_file_spec in H. vm_compute in H. discriminate.
  - vm_compute. discriminate.
Defined.

(** ** The copy count (claim C2) *)

Lemma spawned_cleaned P path w : spawned (cleaned P path w) = spawned w.
Proof. unfold cleaned. now destruct (unlink_error P path). Qed.

(** What one run of [print_endpoint] starts and echoes. *)
Lemma print_endpoint_effects environ P req w :
  let copies := requested_copies req in
  let out := print_endpoint environ P req w in
  (exists started,
      spawned (snd out) = spawned w ++ started
      /\ forall argv, In argv started ->
           argv = LPSTAT_D
           \/ exists printer path, argv = lp_command printer copies path)
  /\ (forall resp, fst out = Return resp -> status resp = 200%Z ->
        exists message job_id,
          body resp = jsonify [(lit "success", JBool true);
                               (lit "message", JStr message);
                               (lit "job_id", json_opt_str job_id);
                               (lit "copies", JInt copies)]).
Proof.
  intros copies out. subst out.
  assert (Quiet : forall o,
             print_endpoint environ P req w = (o, w) ->
             (forall resp, o = Return resp -> status resp <> 200%Z) ->
             (exists started,
                 spawned (snd (print_endpoint environ P req w))
                 = spawned w ++ started
                 /\ forall argv, In argv started ->
                      argv = LPSTAT_D
                      \/ exists printer path, argv = lp_command printer copies path)
             /\ (forall resp, fst (print_endpoint environ P req w) = Return resp ->
                   status resp = 200%Z ->
                   exists message job_id,
                     body resp = jsonify [(lit "success", JBool true);
                                          (lit "message", JStr message);
                                          (lit "job_id", json_opt_str job_id);
                                          (lit "copies", JInt copies)])).
  { intros o E Ho. rewrite E. split.
    - exists []. split; [now rewrite app_nil_r|intros argv []].
    - intros resp Hr Hs. cbn in Hr. now apply Ho in Hr. }
  destruct (too_large req) eqn:Hl.
  { apply (Quiet _ (print_endpoint_too_large environ P req w Hl)).
    intros resp Hr. discriminate Hr. }
  destruct (files req (lit "image")) as [file|] eqn:Hf.
  - destruct (allowed_file (filename file)) eqn:Ha.
    + destruct (mkstemp P (temp_suffix P file)) as [path|msg] eqn:Hm.
      * destruct (file_save P path) as [msg|] eqn:Hs.
        -- rewrite (print_endpoint_save_fails environ P _ w _ _ _ Hf Ha Hm Hs).
           split.
           ++ exists []. split; [cbn; now rewrite app_nil_r|intros argv []].
           ++ intros resp Hr. discriminate Hr.
        -- rewrite (print_endpoint_run environ P _ w _ _ Hf Ha Hm Hs).
           fold copies. cbn [fst snd]. split.
           ++ eexists. split.
              ** rewrite spawned_cleaned. cbn [log spawned created]. reflexivity.
              ** intros argv Hin. apply in_app_or in Hin as [Hin|Hin].
                 --- unfold printer_lookup in Hin.
                     destruct (pinned environ); [destruct Hin|].
                     destruct Hin as [<-|[]]. now left.
                 --- unfold submission in Hin.
                     destruct (truthy (resolved_printer environ P));
                       [|destruct Hin].
                     destruct Hin as [<-|[]]. right. eauto.
           ++ intros resp Hr Hst. inversion Hr; subst resp. clear Hr.
              destruct (fst (submission environ P path copies))
                as [[[|] m] j]; cbn in Hst; [|discriminate].
              exists m, j. reflexivity.
      * apply (Quiet (Raise (OSError msg))).
        -- now apply print_endpoint_mkstemp_fails with (file := file).
        -- intros resp Hr. discriminate Hr.
    + destruct (print_endpoint_rejects environ P req w file Hf Ha) as [m Hm].
      apply (Quiet _ Hm). intros resp Hr. inversion Hr; subst. discriminate.
  - apply (Quiet _ (print_endpoint_no_image environ P req w Hl Hf)).
    intros resp Hr. inversion Hr; subst. discriminate.
Qed.



(** ** Spooler failure (claim C5) *)

(** C5: when the spooler submission of a [POST /print] request exits
    with a non-zero code, the response is status 500 with body
    [{success: false, error: "Print failed: " + stderr}]. *)
Theorem spooler_failure_reported environ P req w file path printer rc out err :
  authenticated environ req ->
  files req (lit "image") = Some file ->
  allowed_file (filename file) = true ->
  mkstemp P (temp_suffix P file) = inl path ->
  file_save P path = None ->
  fst (get_printer_name environ P w) = Return (Some printer) ->
  printer <> [] ->
  run_child P (lp_command printer (requested_copies req) path)
  = Completed rc out err ->
  rc <> 0%Z ->
  fst (serve environ P POST_print req w)
  = (jsonify [(lit "success", JBool false);
              (lit "error", JStr (lit "Print failed: " ++ err))], 500%Z).
Proof.
  intros Hauth Hf Ha Hm Hs Hp Hne Hrun Hrc.
  rewrite get_printer_name_run in Hp. cbn [fst] in Hp.
  inversion Hp as [Hres]. clear Hp.
  rewrite serve_authenticated_print by assumption.
  rewrite (print_endpoint_run environ P _ w _ _ Hf Ha Hm Hs).
  cbn [fst]. unfold submission. rewrite Hres.
  destruct printer as [|c printer]; [congruence|].
  cbn [truthy text_of fst]. rewrite Hrun. cbn [job_result].
  destruct (Z.eqb_spec rc 0) as [->|_]; [congruence|]. reflexivity.
Qed.

Lemma spooler_failure_reported_witness :
  fst (serve Sample.environ_pinned
             (Sample.platform_with (Completed 1 [] (lit "no such printer")) None None)
             POST_print (Sample.req (Some Sample.secret) "cat.png" None) empty_world)
  = (jsonify [(lit "success", JBool false);
              (lit "error", JStr (lit "Print failed: no such printer"))], 500%Z).
Proof.
  apply (spooler_failure_reported Sample.environ_pinned
           (Sample.platform_with (Completed 1 [] (lit "no such printer")) None None)
           (Sample.req (Some Sample.secret) "cat.png" None) empty_world
           {| filename := lit "cat.png"; stream := lit "..." |}
           (lit "/tmp/tmpab12cd.png") (lit "PR1") 1 [] (lit "no such printer")).
  - split; [reflexivity|split; [vm_compute; discriminate|reflexivity]].
  - reflexivity.
  - reflexivity.
  - reflexivity.
  - reflexivity.
  - reflexivity.
  - discriminate.
  - reflexivity.
  - discriminate.
Defined.

(** ** The job identifier (claim C1) *)

Lemma split_ws_skip ws s :
  Forall is_space ws -> Py.split_ws_go [] (ws ++ s) = Py.split_ws_go [] s.
Proof.
  induction 1 as [|c ws Hc _ IH]; [reflexivity|].
  simpl app. cbn [Py.split_ws_go]. now rewrite Hc.
Qed.

Lemma split_ws_word tok : forall cur s,
  Forall not_space tok ->
  Py.split_ws_go cur (tok ++ s) = Py.split_ws_go (rev tok ++ cur) s.
Proof.
  induction tok as [|c tok IH]; intros cur s H; [reflexivity|].
  inversion H as [|? ? Hc Htok]; subst.
  simpl app. cbn [Py.split_ws_go]. rewrite Hc, IH by assumption.
  cbn [rev]. now rewrite <- app_assoc.
Qed.

(** The first word of a text: leading whitespace, then the word, then
    the end or more whitespace. *)
Lemma split_ws_first ws tok rest :
  Forall is_space ws -> tok <> [] -> Forall not_space tok ->
  (rest = [] \/ exists c rest', rest = c :: rest' /\ is_space c) ->
  exists more, Py.split_ws (ws ++ tok ++ rest) = tok :: more.
Proof.
  intros Hws Hne Htok Hrest. unfold Py.split_ws.
  rewrite split_ws_skip, split_ws_word, app_nil_r by assumption.
  assert (Hcur : exists c cur, rev tok = c :: cur).
  { destruct (rev tok) as [|c cur] eqn:E; [|eauto].
    apply (f_equal (@rev ascii)) in E. rewrite rev_involutive in E.
    now subst tok. }
  destruct Hcur as (c & cur & Hcur).
  destruct Hrest as [-> | (d & rest' & -> & Hd)].
  - exists []. cbn [Py.split_ws_go]. rewrite Hcur, <- Hcur.
    now rewrite rev_involutive.
  - eexists. cbn [Py.split_ws_go]. rewrite Hd, Hcur, <- Hcur.
    rewrite rev_involutive. reflexivity.
Qed.



Example job_id_of_demo :
  job_id_of (lit "request id is PR1-42 (1 file(s))") = inl (Some (lit "PR1-42")).
Proof. reflexivity. Qed.

(** On a zero exit code the result of [print_image] is decided by
    what can be read after the marker. *)
Lemma print_image_zero_exit environ P path copies w printer out err :
  resolved_printer environ P = Some printer -> printer <> [] ->
  run_child P (lp_command printer copies path) = Completed 0 out err ->
  fst (print_image environ P path copies w)
  = Return (match job_id_of out with
            | inl job_id => (true, SUBMITTED, job_id)
            | inr e => (false, lit "Print error: " ++ exn_str e, None)
            end).
Proof.
  intros Hres Hne Hrun. rewrite print_image_run. cbn [fst].
  unfold submission. rewrite Hres.
  destruct printer as [|c printer]; [congruence|].
  cbn [truthy text_of fst]. now rewrite Hrun.
Qed.

(** C1, the failing input: the spooler exits with code 0 and its
    standard output is the marker [request id is] with nothing after
    it.  [print_image] reports failure with the message of the
    [IndexError], and [POST /print] answers 500, although the job was
    submitted. *)
Theorem marker_without_identifier_reported_failed :
  fst (print_image Sample.environ_pinned
         (Sample.platform_with (Completed 0 (lit "request id is") []) None None)
         (lit "/tmp/tmpab12cd.png") 1 empty_world)
  = Return (false, lit "Print error: list index out of range", None)
  /\ fst (serve Sample.environ_pinned
            (Sample.platform_with (Completed 0 (lit "request id is") []) None None)
            POST_print (Sample.req (Some Sample.secret) "cat.png" None) empty_world)
     = (jsonify [(lit "success", JBool false);
                 (lit "error", JStr (lit "Print error: list index out of range"))],
        500%Z).
Proof. split; vm_compute; reflexivity. Qed.

(** ** The temporary file (claim C6) *)

Lemma try_finally_cleanup {A} P path (body : M A) w :
  try_finally body (try_except (os_unlink P path) (fun _ => ret tt)) w
  = (fst (body w), cleaned P path (snd (body w))).
Proof.
  unfold try_finally. destruct (body w) as [r w'].
  now rewrite cleanup_run.
Qed.

Lemma cleaned_disk P path w :
  unlink_error P path = None -> ~ In path (disk (cleaned P path w)).
Proof.
  intros H. unfold cleaned. rewrite H. cbn [disk]. apply remove_In.
Qed.

(** Once the upload has been written, the clean-up runs after the
    submission whatever its result; a successful removal leaves no
    file of that name, a failed one changes neither the response nor
    the world. *)
Lemma temp_file_removed_after_submission environ P req w file path :
  files req (lit "image") = Some file ->
  allowed_file (filename file) = true ->
  mkstemp P (temp_suffix P file) = inl path ->
  file_save P path = None ->
  let out := print_endpoint environ P req w in
  let sub := submission environ P path (requested_copies req) in
  fst out = Return (answer (fst sub) (requested_copies req))
  /\ (unlink_error P path = None -> ~ In path (disk (snd out)))
  /\ (unlink_error P path <> None -> disk (snd out) = path :: disk w).
Proof.
  intros Hf Ha Hm Hs out sub. subst out sub.
  rewrite (print_endpoint_run environ P _ w _ _ Hf Ha Hm Hs).
  cbn [fst snd]. repeat split.
  - apply cleaned_disk.
  - intros Hu. unfold cleaned.
    destruct (unlink_error P path); [reflexivity|congruence].
Qed.

(** C6, the failing input: writing the upload into the new temporary
    file raises (here: no space left on the device).  The exception
    leaves the view before the [try ... finally], the client gets a
    500, and the temporary file is still on disk. *)
Theorem failed_save_leaves_temp_file :
  serve Sample.environ_pinned
        (Sample.platform_with Sample.lp_ok
           (Some (lit "[Errno 28] No space left on device")) None)
        POST_print (Sample.req (Some Sample.secret) "cat.png" None) empty_world
  = ((JStr (lit "Internal Server Error"), 500%Z),
     {| disk := [lit "/tmp/tmpab12cd.png"]; spawned := [] |}).
Proof. vm_compute. reflexivity. Qed.

(** ** Printer resolution (claim C7) *)









(** ** Printer listing (claims C8 and C9) *)

Lemma serve_authenticated_printers environ P req w :
  authenticated environ req ->
  serve environ P GET_printers req w
  = (printers_answer environ (run_child P LPSTAT_P_D), log w [LPSTAT_P_D]).
Proof.
  intros Ha. unfold serve. cbn [view].
  now rewrite guard_pass, list_printers_run.
Qed.

(** C8: whatever [lpstat -p -d] prints (and whatever its exit code),
    an authenticated [GET /printers] answers 200 with [printers] the
    second whitespace-delimited word of each output line that begins
    with [printer ], in output order and with repetitions kept,
    [default] the name parsed from the default-destination line
    ([null] when there is none), and [configured] the pinned name. *)
Theorem printers_listing environ P req w rc out err :
  authenticated environ req ->
  run_child P LPSTAT_P_D = Completed rc out err ->
  let lines := Py.split NEWLINE out in
  serve environ P GET_printers req w
  = ((jsonify [(lit "printers", JList (map JStr (printer_names lines)));
               (lit "default", json_opt_str (default_destination lines));
               (lit "configured", JStr (Config.PRINTER_NAME environ))], 200%Z),
     log w [LPSTAT_P_D])
  /\ (forall before after,
         printer_names (before ++ after)
         = printer_names before ++ printer_names after)
  /\ (forall line,
         printer_names [line]
         = if Py.startswith line (lit "printer ")
           then match Py.split_ws line with
                | _ :: name :: _ => [name]
                | _ => []
                end
           else [])
  /\ (Forall (fun line => default_line line = false) lines ->
      default_destination lines = None).
Proof.
  intros Ha Hrun lines. repeat split.
  - rewrite serve_authenticated_printers by assumption. now rewrite Hrun.
  - intros before after. apply flat_map_app.
  - intros line. cbn [printer_names flat_map]. rewrite app_nil_r.
    unfold printer_line.
    destruct (Py.startswith line (lit "printer ")); [|reflexivity].
    now destruct (Py.split_ws line) as [|a [|b l]].
  - intros Hnone. unfold default_destination.
    replace (filter default_line lines) with (@nil str); [reflexivity|].
    symmetry. clear -Hnone. induction Hnone as [|l ls Hl _ IH]; [reflexivity|].
    cbn [filter]. now rewrite Hl.
Qed.

Lemma printers_listing_witness :
  serve Sample.environ_pinned Sample.healthy GET_printers
        (Sample.req (Some Sample.secret) "" None) empty_world
  = ((jsonify [(lit "printers",
                JList [JStr (lit "PR1"); JStr (lit "Office"); JStr (lit "PR1")]);
               (lit "default", JStr (lit "PR1"));
               (lit "configured", JStr (lit "PR1"))], 200%Z),
     {| disk := []; spawned := [LPSTAT_P_D] |}).
Proof.
  assert (Ha : authenticated Sample.environ_pinned
                 (Sample.req (Some Sample.secret) "" None)).
  { split; [reflexivity|split; [vm_compute; discriminate|reflexivity]]. }
  assert (Hrun : run_child Sample.healthy LPSTAT_P_D
                 = Completed 0 Sample.lpstat_p_d_output []).
  { vm_compute. reflexivity. }
  destruct (printers_listing Sample.environ_pinned Sample.healthy
              (Sample.req (Some Sample.secret) "" None) empty_world
              0%Z Sample.lpstat_p_d_output [] Ha Hrun) as [H _].
  rewrite H. vm_compute. reflexivity.
Defined.

(** C9, as stated, fails: the status command fails with exit code 1
    and the endpoint answers 200 with an empty listing. *)
Lemma failed_status_command_answered_200 :
  serve Sample.environ_pinned
        (Sample.platform_always
           (Completed 1 [] (lit "lpstat: Unable to connect to server")))
        GET_printers (Sample.req (Some Sample.secret) "" None) empty_world
  = ((jsonify [(lit "printers", JList []);
               (lit "default", JNull);
               (lit "configured", JStr (lit "PR1"))], 200%Z),
     {| disk := []; spawned := [LPSTAT_P_D] |}).
Proof. vm_compute. reflexivity. Qed.

(** C9 (amended): when running the status command raises (it times
    out or cannot be started), an authenticated [GET /printers]
    answers 500 with body [{error: str(e)}]; when the command
    completes, whatever its exit code, the answer is 200. *)
Theorem status_command_errors_surface environ P req w :
  authenticated environ req ->
  let resp := fst (serve environ P GET_printers req w) in
  (run_child P LPSTAT_P_D = TimedOut ->
   resp = (jsonify [(lit "error",
                     JStr (lit "Command '['lpstat', '-p', '-d']' timed out after 10 seconds"))],
           500%Z))
  /\ (forall msg, run_child P LPSTAT_P_D = SpawnError msg ->
                  resp = (jsonify [(lit "error", JStr msg)], 500%Z))
  /\ (forall rc out err, run_child P LPSTAT_P_D = Completed rc out err ->
                         status resp = 200%Z).
Proof.
  intros Ha resp. subst resp.
  rewrite serve_authenticated_printers by assumption. cbn [fst].
  repeat split.
  - now intros ->.
  - now intros msg ->.
  - now intros rc out err ->.
Qed.

Lemma status_command_errors_surface_witness :
  fst (serve Sample.environ
         (Sample.platform_always
            (SpawnError (lit "[Errno 2] No such file or directory: 'lpstat'")))
         GET_printers (Sample.req (Some Sample.secret) "" None) empty_world)
  = (jsonify [(lit "error",
               JStr (lit "[Errno 2] No such file or directory: 'lpstat'"))],
     500%Z).
Proof.
  assert (Ha : authenticated Sample.environ
                 (Sample.req (Some Sample.secret) "" None)).
  { split; [reflexivity|split; [vm_compute; discriminate|reflexivity]]. }
  apply (proj1 (proj2 (status_command_errors_surface Sample.environ
                         (Sample.platform_always
                            (SpawnError (lit "[Errno 2] No such file or directory: 'lpstat'")))
                         (Sample.req (Some Sample.secret) "" None) empty_world
                         Ha))).
  reflexivity.
Defined.


(** ** Further facts about the text operations *)

Lemma rev_nonempty {A} (l : list A) : l <> [] -> rev l <> [].
Proof.
  intros H E. apply H. apply (f_equal (@rev A)) in E.
  now rewrite rev_involutive in E.
Qed.

(** Every piece [split()] produces is a non-empty run without
    whitespace. *)
Lemma split_ws_go_words : forall s cur,
  Forall not_space cur ->
  Forall (fun t => t <> [] /\ Forall not_space t) (Py.split_ws_go cur s).
Proof.
  induction s as [|c s IH]; intros cur Hcur; cbn [Py.split_ws_go].
  - destruct cur as [|d cur]; constructor; [|constructor].
    split; [apply rev_nonempty; discriminate|now apply Forall_rev].
  - destruct (Py.isspace c) eqn:Hc.
    + destruct cur as [|d cur]; [now apply IH|].
      constructor; [|now apply IH].
      split; [apply rev_nonempty; discriminate|now apply Forall_rev].
    + apply IH. now constructor.
Qed.

Lemma split_ws_words s :
  Forall (fun t => t <> [] /\ Forall not_space t) (Py.split_ws s).
Proof. apply split_ws_go_words. constructor. Qed.

Lemma lower_char_idem c : Py.lower_char (Py.lower_char c) = Py.lower_char c.
Proof.
  destruct c as [[] [] [] [] [] [] [] []]; vm_compute; reflexivity.
Qed.

Lemma lower_idem s : Py.lower (Py.lower s) = Py.lower s.
Proof.
  unfold Py.lower. rewrite map_map. apply map_ext. apply lower_char_idem.
Qed.

Lemma lower_char_period c : Py.lower_char c = "."%char -> c = "."%char.
Proof.
  destruct c as [[] [] [] [] [] [] [] []]; intros H; vm_compute in H;
    first [reflexivity | discriminate H].
Qed.

Lemma lower_keeps_periods_out ext :
  ~ In "."%char ext -> ~ In "."%char (Py.lower ext).
Proof.
  intros Hnot Hin. apply Hnot. unfold Py.lower in Hin.
  apply in_map_iff in Hin as (c & Hc & Hin).
  apply lower_char_period in Hc. now subst c.
Qed.

Lemma lstrip_trimmed s : trimmed (Py.lstrip s).
Proof.
  induction s as [|c s IH]; [now left|].
  cbn [Py.lstrip]. destruct (Py.isspace c) eqn:Hc; [exact IH|].
  right. now exists c, s.
Qed.

Lemma lstrip_fixed s : trimmed s -> Py.lstrip s = s.
Proof.
  intros [-> | (c & t & -> & Hc)]; [reflexivity|].
  cbn [Py.lstrip]. now rewrite Hc.
Qed.

Lemma lstrip_snoc c : not_space c -> forall l,
  exists l', Py.lstrip (l ++ [c]) = l' ++ [c].
Proof.
  intros Hc. induction l as [|x l IH].
  - exists []. cbn. now rewrite Hc.
  - simpl app. cbn [Py.lstrip]. destruct (Py.isspace x); [exact IH|].
    now exists (x :: l).
Qed.

Lemma rstrip_trimmed s : trimmed s -> trimmed (Py.rstrip s).
Proof.
  intros [-> | (c & t & -> & Hc)]; [now left|].
  unfold Py.rstrip. cbn [rev].
  destruct (lstrip_snoc c Hc (rev t)) as [l' ->].
  rewrite rev_app_distr. right. now exists c, (rev l').
Qed.

Lemma rstrip_idem s : Py.rstrip (Py.rstrip s) = Py.rstrip s.
Proof.
  unfold Py.rstrip. rewrite rev_involutive.
  now rewrite (lstrip_fixed _ (lstrip_trimmed (rev s))).
Qed.

(** Stripping twice is stripping once. *)
Lemma strip_idem s : Py.strip (Py.strip s) = Py.strip s.
Proof.
  unfold Py.strip.
  rewrite (lstrip_fixed _ (rstrip_trimmed _ (lstrip_trimmed s))).
  apply rstrip_idem.
Qed.

(** ** The ways [print_endpoint] can end *)

Lemma print_endpoint_cases environ P req w :
  (exists message,
      print_endpoint environ P req w
      = (Return (jsonify [(lit "error", JStr message)], 400%Z), w))
  \/ (exists msg,
         print_endpoint environ P req w = (Raise (OSError msg), w)
         \/ print_endpoint environ P req w = (Raise RequestEntityTooLarge, w))
  \/ (exists path msg,
         print_endpoint environ P req w = (Raise (OSError msg), created path w))
  \/ (exists file path,
         files req (lit "image") = Some file
         /\ allowed_file (filename file) = true
         /\ mkstemp P (temp_suffix P file) = inl path
         /\ file_save P path = None
         /\ print_endpoint environ P req w
            = (Return (answer (fst (submission environ P path (requested_copies req)))
                              (requested_copies req)),
               cleaned P path
                 (log (created path w)
                      (printer_lookup environ
                       ++ snd (submission environ P path (requested_copies req)))))).
Proof.
  destruct (too_large req) eqn:Hl.
  { right. left. exists []. right. now apply print_endpoint_too_large. }
  destruct (files req (lit "image")) as [file|] eqn:Hf.
  - destruct (allowed_file (filename file)) eqn:Ha.
    + destruct (mkstemp P (temp_suffix P file)) as [path|msg] eqn:Hm.
      * destruct (file_save P path) as [msg|] eqn:Hs.
        -- right. right. left. exists path, msg.
           now apply print_endpoint_save_fails with (file := file).
        -- right. right. right. exists file, path. repeat split; try assumption.
           now apply print_endpoint_run with (file := file).
      * right. left. exists msg. left.
        now apply print_endpoint_mkstemp_fails with (file := file).
    + left. now apply print_endpoint_rejects with (file := file).
  - left. eexists. now apply print_endpoint_no_image.
Qed.

(** ** The health check *)

(** X1: [GET /health] needs no credential: for every request, whatever
    its headers, the answer is 200 with the printer [get_printer_name]
    finds and [printer_configured] telling whether that is not [None];
    the disk is untouched and the only process it may start is
    [lpstat -d]. *)
Theorem health_needs_no_key environ P req w :
  exists printer,
    fst (get_printer_name environ P w) = Return printer
    /\ fst (serve environ P GET_health req w)
       = (jsonify [(lit "status", JStr (lit "ok"));
                   (lit "printer", json_opt_str printer);
                   (lit "printer_configured",
                    JBool (match printer with Some _ => true | None => false end))],
          200%Z)
    /\ disk (snd (serve environ P GET_health req w)) = disk w
    /\ (spawned (snd (serve environ P GET_health req w)) = spawned w
        \/ spawned (snd (serve environ P GET_health req w))
           = spawned w ++ [LPSTAT_D]).
Proof.
  exists (resolved_printer environ P).
  unfold serve. cbn [view]. unfold health_check, bind.
  rewrite get_printer_name_run. cbn [fst snd ret].
  repeat split.
  unfold printer_lookup. destruct (pinned environ); cbn [log spawned].
  - left. apply app_nil_r.
  - now right.
Qed.

(** X2: when the default destination read from [lpstat -d] is the
    empty text, the health check reports [printer_configured: true]
    while [print_image] refuses with "No printer configured or found"
    and starts no further process. *)
Theorem empty_default_health_and_print_disagree environ P req w path copies :
  fst (get_printer_name environ P w) = Return (Some []) ->
  fst (serve environ P GET_health req w)
  = (jsonify [(lit "status", JStr (lit "ok"));
              (lit "printer", JStr []);
              (lit "printer_configured", JBool true)], 200%Z)
  /\ fst (print_image environ P path copies w)
     = Return (false, lit "No printer configured or found", None)
  /\ snd (print_image environ P path copies w)
     = snd (get_printer_name environ P w).
Proof.
  intros H. rewrite get_printer_name_run in H. cbn [fst] in H.
  inversion H as [Hres]. clear H.
  unfold serve. cbn [view]. unfold health_check, bind.
  rewrite print_image_run, !get_printer_name_run. unfold submission.
  rewrite Hres. cbn [fst snd ret truthy json_opt_str].
  repeat split. now rewrite app_nil_r.
Qed.

Lemma empty_default_health_and_print_disagree_witness :
  fst (serve Sample.environ (Sample.platform_always (Completed 0 DEFAULT_MARKER []))
             GET_health (Sample.req None "" None) empty_world)
  = (jsonify [(lit "status", JStr (lit "ok"));
              (lit "printer", JStr []);
              (lit "printer_configured", JBool true)], 200%Z)
  /\ fst (print_image Sample.environ
            (Sample.platform_always (Completed 0 DEFAULT_MARKER []))
            (lit "/tmp/tmpab12cd.png") 1 empty_world)
     = Return (false, lit "No printer configured or found", None)
  /\ snd (print_image Sample.environ
            (Sample.platform_always (Completed 0 DEFAULT_MARKER []))
            (lit "/tmp/tmpab12cd.png") 1 empty_world)
     = snd (get_printer_name Sample.environ
              (Sample.platform_always (Completed 0 DEFAULT_MARKER [])) empty_world).
Proof.
  apply empty_default_health_and_print_disagree.
  vm_compute. reflexivity.
Defined.

(** ** Submission outcomes other than a non-zero exit *)

(** X3: when no printer can be resolved ([get_printer_name] gives
    [None] or the empty text), an authenticated [POST /print] with an
    accepted, stored upload answers 500 "No printer configured or
    found"; no [lp] command is started: the request starts at most
    the [lpstat -d] lookup. *)
Theorem no_printer_no_submission environ P req w file path printer :
  authenticated environ req ->
  files req (lit "image") = Some file ->
  allowed_file (filename file) = true ->
  mkstemp P (temp_suffix P file) = inl path ->
  file_save P path = None ->
  fst (get_printer_name environ P w) = Return printer ->
  truthy printer = false ->
  fst (serve environ P POST_print req w)
  = (jsonify [(lit "success", JBool false);
              (lit "error", JStr (lit "No printer configured or found"))], 500%Z)
  /\ (spawned (snd (serve environ P POST_print req w)) = spawned w
      \/ spawned (snd (serve environ P POST_print req w)) = spawned w ++ [LPSTAT_D]).
Proof.
  intros Hauth Hf Ha Hm Hs Hp Ht.
  rewrite get_printer_name_run in Hp. cbn [fst] in Hp.
  inversion Hp as [Hres]. clear Hp.
  rewrite serve_authenticated_print by assumption.
  rewrite (print_endpoint_run environ P _ w _ _ Hf Ha Hm Hs).
  cbn [fst snd]. unfold submission. rewrite Hres, Ht. cbn [fst snd].
  split; [reflexivity|].
  rewrite spawned_cleaned. cbn [log spawned created]. rewrite app_nil_r.
  unfold printer_lookup. destruct (pinned environ).
  - left. apply app_nil_r.
  - now right.
Qed.

Lemma no_printer_no_submission_witness :
  fst (serve Sample.environ (Sample.platform_always (Completed 1 [] []))
             POST_print (Sample.req (Some Sample.secret) "cat.png" None) empty_world)
  = (jsonify [(lit "success", JBool false);
              (lit "error", JStr (lit "No printer configured or found"))], 500%Z)
  /\ (spawned (snd (serve Sample.environ (Sample.platform_always (Completed 1 [] []))
                          POST_print (Sample.req (Some Sample.secret) "cat.png" None)
                          empty_world))
      = spawned empty_world
      \/ spawned (snd (serve Sample.environ (Sample.platform_always (Completed 1 [] []))
                             POST_print (Sample.req (Some Sample.secret) "cat.png" None)
                             empty_world))
         = spawned empty_world ++ [LPSTAT_D]).
Proof.
  apply (no_printer_no_submission Sample.environ
           (Sample.platform_always (Completed 1 [] []))
           (Sample.req (Some Sample.secret) "cat.png" None) empty_world
           {| filename := lit "cat.png"; stream := lit "..." |}
           (lit "/tmp/tmpab12cd.png") None).
  - split; [reflexivity|split; [vm_compute; discriminate|reflexivity]].
  - reflexivity.
  - reflexivity.
  - reflexivity.
  - reflexivity.
  - vm_compute. reflexivity.
  - reflexivity.
Defined.

(** X4: when the [lp] command of an authenticated [POST /print] times
    out the answer is 500 "Print command timed out", and when it
    cannot be run the answer is 500 "Print error: " followed by the
    text of the exception. *)
Theorem submission_timeout_and_spawn_error environ P req w file path printer :
  authenticated environ req ->
  files req (lit "image") = Some file ->
  allowed_file (filename file) = true ->
  mkstemp P (temp_suffix P file) = inl path ->
  file_save P path = None ->
  fst (get_printer_name environ P w) = Return (Some printer) ->
  printer <> [] ->
  let lp := run_child P (lp_command printer (requested_copies req) path) in
  let resp := fst (serve environ P POST_print req w) in
  (lp = TimedOut ->
   resp = (jsonify [(lit "success", JBool false);
                    (lit "error", JStr (lit "Print command timed out"))], 500%Z))
  /\ (forall msg, lp = SpawnError msg ->
        resp = (jsonify [(lit "success", JBool false);
                         (lit "error", JStr (lit "Print error: " ++ msg))], 500%Z)).
Proof.
  intros Hauth Hf Ha Hm Hs Hp Hne lp resp. subst lp resp.
  rewrite get_printer_name_run in Hp. cbn [fst] in Hp.
  inversion Hp as [Hres]. clear Hp.
  rewrite serve_authenticated_print by assumption.
  rewrite (print_endpoint_run environ P _ w _ _ Hf Ha Hm Hs).
  cbn [fst]. unfold submission. rewrite Hres.
  destruct printer as [|c printer]; [congruence|].
  cbn [truthy text_of fst]. split.
  - now intros ->.
  - now intros msg ->.
Qed.

Lemma submission_timeout_and_spawn_error_witness :
  fst (serve Sample.environ_pinned (Sample.platform_with TimedOut None None)
             POST_print (Sample.req (Some Sample.secret) "cat.png" None) empty_world)
  = (jsonify [(lit "success", JBool false);
              (lit "error", JStr (lit "Print command timed out"))], 500%Z).
Proof.
  assert (Ha : authenticated Sample.environ_pinned
                 (Sample.req (Some Sample.secret) "cat.png" None)).
  { split; [reflexivity|split; [vm_compute; discriminate|reflexivity]]. }
  assert (Hp : fst (get_printer_name Sample.environ_pinned
                      (Sample.platform_with TimedOut None None) empty_world)
               = Return (Some (lit "PR1"))).
  { vm_compute. reflexivity. }
  assert (Hne : lit "PR1" <> []) by discriminate.
  destruct (submission_timeout_and_spawn_error Sample.environ_pinned
              (Sample.platform_with TimedOut None None)
              (Sample.req (Some Sample.secret) "cat.png" None) empty_world
              {| filename := lit "cat.png"; stream := lit "..." |}
              (lit "/tmp/tmpab12cd.png") (lit "PR1")
              Ha eq_refl eq_refl eq_refl eq_refl Hp Hne) as [H _].
  apply H. vm_compute. reflexivity.
Defined.

(** ** What a response tells about what happened *)

Lemma serve_print_cases environ P req w :
  (snd (serve environ P POST_print req w) = w
   /\ (status (fst (serve environ P POST_print req w)) = 401%Z
       \/ status (fst (serve environ P POST_print req w)) = 403%Z
       \/ status (fst (serve environ P POST_print req w)) = 500%Z))
  \/ serve environ P POST_print req w
     = match print_endpoint environ P req w with
       | (Return resp, w') => (resp, w')
       | (Raise e, w') => (error_response e, w')
       end.
Proof.
  unfold serve. cbn [view].
  destruct (guard_cases environ (print_endpoint environ P) req w)
    as [E|[E|[[m E]|E]]]; rewrite E; cbn; auto.
Qed.

(** X5: [POST /print] answers 200 only after an [lp] command for the
    request's copy count was started and completed with exit code 0. *)
Theorem success_means_zero_exit environ P req w :
  status (fst (serve environ P POST_print req w)) = 200%Z ->
  exists printer path out err,
    In (lp_command printer (requested_copies req) path)
       (spawned (snd (serve environ P POST_print req w)))
    /\ run_child P (lp_command printer (requested_copies req) path)
       = Completed 0 out err.
Proof.
  intros Hst.
  destruct (serve_print_cases environ P req w) as [[_ Hs]|E]; [lia|].
  rewrite E in Hst |- *. clear E.
  destruct (print_endpoint_cases environ P req w)
    as [[m E]|[[m [E|E]]|[(path & m & E)|(file & path & _ & _ & _ & _ & E)]]];
    rewrite E in Hst |- *; cbn [fst snd status error_response] in Hst |- *;
    try discriminate.
  rewrite answer_status in Hst. unfold submission in Hst |- *.
  destruct (truthy (resolved_printer environ P)); cbn [fst snd] in Hst |- *;
    [|discriminate].
  set (cmd := lp_command (text_of (resolved_printer environ P))
                         (requested_copies req) path) in *.
  destruct (run_child P cmd) as [rc out err| |msg] eqn:Hrun;
    cbn [job_result fst] in Hst; try discriminate.
  destruct (Z.eqb_spec rc 0) as [->|_]; [|discriminate].
  exists (text_of (resolved_printer environ P)), path, out, err.
  split; [|exact Hrun].
  rewrite spawned_cleaned. cbn [log spawned created].
  apply in_or_app. right. apply in_or_app. right. now left.
Qed.

Lemma success_means_zero_exit_witness :
  exists printer path out err,
    In (lp_command printer
          (requested_copies (Sample.req (Some Sample.secret) "cat.png" None)) path)
       (spawned (snd (serve Sample.environ Sample.healthy POST_print
                            (Sample.req (Some Sample.secret) "cat.png" None)
                            empty_world)))
    /\ run_child Sample.healthy
         (lp_command printer
            (requested_copies (Sample.req (Some Sample.secret) "cat.png" None)) path)
       = Completed 0 out err.
Proof.
  apply success_means_zero_exit. vm_compute. reflexivity.
Defined.

(** X6: an authenticated [POST /print] whose body is no longer than
    [MAX_CONTENT_LENGTH] and has no [image] part is answered 400 "No
    image file provided", and one whose [image] part has an empty file
    name 400 "No file selected"; in both cases nothing else happens. *)
Theorem missing_or_unnamed_upload_rejected environ P req w :
  authenticated environ req ->
  (content_length req <= Config.MAX_CONTENT_LENGTH)%Z ->
  (uploads req (lit "image") = None ->
   serve environ P POST_print req w
   = ((jsonify [(lit "error", JStr (lit "No image file provided"))], 400%Z), w))
  /\ (forall file, uploads req (lit "image") = Some file -> filename file = [] ->
        serve environ P POST_print req w
        = ((jsonify [(lit "error", JStr (lit "No file selected"))], 400%Z), w)).
Proof.
  intros Ha Hsize. apply too_large_false in Hsize.
  rewrite serve_authenticated_print by assumption. split.
  - intros Hf. rewrite <- (files_uploads req _ Hsize) in Hf.
    now rewrite print_endpoint_no_image.
  - intros file Hf Hname. rewrite <- (files_uploads req _ Hsize) in Hf.
    unfold print_endpoint. rewrite (load_then req _ w Hsize).
    now rewrite Hf, Hname.
Qed.

Lemma missing_or_unnamed_upload_rejected_witness :
  serve Sample.environ Sample.healthy POST_print
        (Sample.req (Some Sample.secret) "" None) empty_world
  = ((jsonify [(lit "error", JStr (lit "No file selected"))], 400%Z), empty_world).
Proof.
  assert (Ha : authenticated Sample.environ
                 (Sample.req (Some Sample.secret) "" None)).
  { split; [reflexivity|split; [vm_compute; discriminate|reflexivity]]. }
  assert (Hsize : (content_length (Sample.req (Some Sample.secret) "" None)
                   <= Config.MAX_CONTENT_LENGTH)%Z).
  { vm_compute. discriminate. }
  apply (proj2 (missing_or_unnamed_upload_rejected Sample.environ Sample.healthy
                  (Sample.req (Some Sample.secret) "" None) empty_world Ha Hsize)
           {| filename := []; stream := lit "..." |}); reflexivity.
Defined.

(** What [POST /print] starts, whoever asks. *)
Lemma print_request_starts environ P req w :
  exists started,
    spawned (snd (serve environ P POST_print req w)) = spawned w ++ started
    /\ forall argv, In argv started ->
         argv = LPSTAT_D
         \/ exists printer path,
              argv = lp_command printer (requested_copies req) path.
Proof.
  destruct (serve_print_cases environ P req w) as [[Hw _]|E].
  - rewrite Hw. exists []. split; [now rewrite app_nil_r|intros ? []].
  - rewrite E. destruct (print_endpoint_effects environ P req w) as [Hstart _].
    now destruct (print_endpoint environ P req w) as [[resp|e] w'].
Qed.

(** X7: whatever the [copies] form field holds, the copy count lies
    between 1 and [MAX_COPIES], and every [lp] command a [POST /print]
    request starts asks for a number of copies in that range. *)
Theorem copies_always_in_range environ P req w :
  (1 <= requested_copies req <= Config.MAX_COPIES)%Z
  /\ exists started,
       spawned (snd (serve environ P POST_print req w)) = spawned w ++ started
       /\ forall argv, In argv started ->
            argv = LPSTAT_D
            \/ exists printer path copies,
                 argv = lp_command printer copies path
                 /\ (1 <= copies <= Config.MAX_COPIES)%Z.
Proof.
  assert (Hrange : (1 <= requested_copies req <= Config.MAX_COPIES)%Z).
  { unfold requested_copies, clamp_copies, Config.MAX_COPIES.
    destruct (int_of _); lia. }
  split; [exact Hrange|].
  destruct (print_request_starts environ P req w)
    as (started & Hs & Hall).
  exists started. split; [exact Hs|].
  intros argv Hin. destruct (Hall argv Hin) as [->|(printer & path & ->)];
    [now left|right]. now exists printer, path, (requested_copies req).
Qed.

(** ** The temporary file once the upload is stored *)

Lemma remove_absent (x : str) l : ~ In x l -> remove str_eq_dec x l = l.
Proof.
  induction l as [|y l IH]; intros H; [reflexivity|].
  cbn [remove]. destruct (str_eq_dec x y) as [->|_].
  - exfalso. apply H. now left.
  - f_equal. apply IH. intros Hin. apply H. now right.
Qed.

(** X8: once the upload of an authenticated [POST /print] is written
    to its temporary file, the answer is the one built from
    [print_image]'s result whether or not the removal works; if the
    removal succeeds the file is gone, and the disk is exactly as
    before the request when the name was fresh; if the removal fails
    the file stays. *)
Theorem stored_upload_cleaned_up environ P req w file path :
  authenticated environ req ->
  files req (lit "image") = Some file ->
  allowed_file (filename file) = true ->
  mkstemp P (temp_suffix P file) = inl path ->
  file_save P path = None ->
  let out := serve environ P POST_print req w in
  (exists r,
      fst (print_image environ P path (requested_copies req) w) = Return r
      /\ fst out = answer r (requested_copies req))
  /\ (unlink_error P path = None ->
      ~ In path (disk (snd out))
      /\ (~ In path (disk w) -> disk (snd out) = disk w))
  /\ (unlink_error P path <> None -> disk (snd out) = path :: disk w).
Proof.
  intros Hauth Hf Ha Hm Hs out. subst out.
  rewrite serve_authenticated_print by assumption.
  rewrite (print_endpoint_run environ P _ w _ _ Hf Ha Hm Hs).
  cbn [fst snd]. split; [|split].
  - eexists. rewrite print_image_run. cbn [fst]. split; reflexivity.
  - intros Hu. split; [now apply cleaned_disk|].
    intros Hfresh. unfold cleaned. rewrite Hu. cbn [disk log created remove].
    destruct (str_eq_dec path path) as [_|Hne]; [|congruence].
    now apply remove_absent.
  - intros Hu. unfold cleaned.
    destruct (unlink_error P path); [reflexivity|congruence].
Qed.

Lemma stored_upload_cleaned_up_witness :
  disk (snd (serve Sample.environ Sample.healthy POST_print
                   (Sample.req (Some Sample.secret) "cat.png" None) empty_world))
  = disk empty_world.
Proof.
  assert (Ha : authenticated Sample.environ
                 (Sample.req (Some Sample.secret) "cat.png" None)).
  { split; [reflexivity|split; [vm_compute; discriminate|reflexivity]]. }
  destruct (stored_upload_cleaned_up Sample.environ Sample.healthy
              (Sample.req (Some Sample.secret) "cat.png" None) empty_world
              {| filename := lit "cat.png"; stream := lit "..." |}
              (lit "/tmp/tmpab12cd.png") Ha eq_refl eq_refl eq_refl eq_refl)
    as (_ & H & _).
  apply H; [reflexivity|]. intros [].
Defined.

(** ** Rejections by the guard *)

(** X9: on [POST /print] and [GET /printers] a 401 or 403 answer means
    that nothing was done: no process was started and no file was
    created. *)
Theorem auth_rejection_has_no_effect environ P r req w :
  guarded r ->
  status (fst (serve environ P r req w)) = 401%Z
  \/ status (fst (serve environ P r req w)) = 403%Z ->
  snd (serve environ P r req w) = w.
Proof.
  intros Hr Hst.
  destruct (serve_guarded environ P r req Hr) as (f & Hv & Hf).
  unfold serve in *. rewrite Hv in *.
  destruct (guard_cases environ f req w) as [E|[E|[[m E]|E]]];
    rewrite E in *; try reflexivity.
  destruct (f req w) as [[resp|e] w1] eqn:Ef; cbn [fst snd status] in *.
  - destruct (Hf w resp w1 Ef) as [H1 H3].
    destruct Hst; contradiction.
  - destruct e; cbn in Hst; destruct Hst; discriminate.
Qed.

Lemma auth_rejection_has_no_effect_witness :
  snd (serve Sample.environ Sample.healthy POST_print
             (Sample.req (Some (lit "guess")) "cat.png" None) empty_world)
  = empty_world.
Proof.
  apply auth_rejection_has_no_effect.
  - left. reflexivity.
  - right. vm_compute. reflexivity.
Defined.

(** X11: with [PRINT_API_KEY] unset the server runs with the
    placeholder key of [config.py], and a request that carries this
    placeholder passes the guard: the view runs. *)
Theorem placeholder_key_is_accepted environ f req w :
  environ (lit "PRINT_API_KEY") = None ->
  headers req (lit "X-API-Key") = Some (lit "CHANGE_ME_GENERATE_A_SECURE_KEY") ->
  require_api_key environ f req w = f req w.
Proof.
  intros Henv Hk. apply guard_pass.
  unfold authenticated, Config.API_KEY, Config.environ_get. rewrite Henv.
  split; [exact Hk|split; [discriminate|reflexivity]].
Qed.

Lemma placeholder_key_is_accepted_witness :
  require_api_key (fun _ => None) (list_printers (fun _ => None) Sample.healthy)
    (Sample.req (Some (lit "CHANGE_ME_GENERATE_A_SECURE_KEY")) "" None) empty_world
  = list_printers (fun _ => None) Sample.healthy
      (Sample.req (Some (lit "CHANGE_ME_GENERATE_A_SECURE_KEY")) "" None) empty_world.
Proof.
  apply placeholder_key_is_accepted; reflexivity.
Defined.

(** X12: with [PRINT_API_KEY] set to the empty text no request can
    pass the guard: whatever the header, the guard answers 401 or 403
    or stops on the comparison's [TypeError], and the view is never
    consulted. *)
Theorem empty_configured_key_locks_out environ f req w :
  environ (lit "PRINT_API_KEY") = Some [] ->
  require_api_key environ f req w = (Return missing_key, w)
  \/ require_api_key environ f req w = (Return invalid_key, w)
  \/ exists m, require_api_key environ f req w = (Raise (TypeError m), w).
Proof.
  intros Henv. unfold require_api_key, Config.API_KEY, Config.environ_get.
  rewrite Henv.
  destruct (headers req (lit "X-API-Key")) as [[|c k]|];
    cbn [truthy negb text_of]; auto.
  unfold bind, compare_digest.
  destruct (forallb is_ascii_char (c :: k) && forallb is_ascii_char []).
  - right. left. reflexivity.
  - right. right. eexists. reflexivity.
Qed.

Lemma empty_configured_key_locks_out_witness :
  require_api_key (Sample.dict [(lit "PRINT_API_KEY", [])])
    (list_printers (fun _ => None) Sample.healthy)
    (Sample.req (Some (lit "anything")) "" None) empty_world
  = (Return missing_key, empty_world)
  \/ require_api_key (Sample.dict [(lit "PRINT_API_KEY", [])])
       (list_printers (fun _ => None) Sample.healthy)
       (Sample.req (Some (lit "anything")) "" None) empty_world
     = (Return invalid_key, empty_world)
  \/ exists m,
       require_api_key (Sample.dict [(lit "PRINT_API_KEY", [])])
         (list_printers (fun _ => None) Sample.healthy)
         (Sample.req (Some (lit "anything")) "" None) empty_world
       = (Raise (TypeError m), empty_world).
Proof.
  apply empty_configured_key_locks_out. reflexivity.
Defined.

(** ** More on the allow-list *)

(** X10: [allowed_file] looks only at the text after the final period
    and ignores its letter case: for an extension without a period,
    whatever precedes it (nothing, or a name with further periods),
    the verdict is whether the lower-cased extension is on the list,
    and it is the same for the lower-cased extension. *)
Theorem only_the_last_extension_counts stem ext :
  ~ In "."%char ext ->
  allowed_file (stem ++ lit "." ++ ext) = mem (Py.lower ext) ALLOWED_EXTENSIONS
  /\ allowed_file (stem ++ lit "." ++ ext)
     = allowed_file (stem ++ lit "." ++ Py.lower ext).
Proof.
  assert (Hlast : forall e, ~ In "."%char e ->
            allowed_file (stem ++ lit "." ++ e)
            = mem (Py.lower e) ALLOWED_EXTENSIONS).
  { intros e He. unfold allowed_file, Py.rsplit1.
    rewrite contains_app. cbn [andb].
    change (rev (lit ".")) with ["."%char].
    rewrite !rev_app_distr. change (rev (lit ".")) with ["."%char].
    rewrite <- app_assoc. cbn [app].
    rewrite partition_char_app by now rewrite <- in_rev.
    cbn [nth_error]. now rewrite rev_involutive. }
  intros Hext. split; [now apply Hlast|].
  rewrite (Hlast ext Hext).
  rewrite (Hlast (Py.lower ext) (lower_keeps_periods_out ext Hext)).
  now rewrite lower_idem.
Qed.

Lemma only_the_last_extension_counts_witness :
  allowed_file (lit "invoice.png" ++ lit "." ++ lit "EXE") = false
  /\ allowed_file (lit "archive.exe" ++ lit "." ++ lit "JpEg") = true.
Proof.
  split.
  - rewrite (proj1 (only_the_last_extension_counts (lit "invoice.png") (lit "EXE")
                      ltac:(vm_compute; intuition discriminate))).
    reflexivity.
  - rewrite (proj1 (only_the_last_extension_counts (lit "archive.exe") (lit "JpEg")
                      ltac:(vm_compute; intuition discriminate))).
    reflexivity.
Defined.

(** ** What the parsers hand out *)

(** X13: every name [GET /printers] lists is a non-empty text without
    whitespace, and no more names are listed than the output has
    lines. *)
Theorem listed_printers_are_words environ P req w rc out err :
  authenticated environ req ->
  run_child P LPSTAT_P_D = Completed rc out err ->
  exists names default,
    fst (serve environ P GET_printers req w)
    = (jsonify [(lit "printers", JList (map JStr names));
                (lit "default", default);
                (lit "configured", JStr (Config.PRINTER_NAME environ))], 200%Z)
    /\ Forall (fun name => name <> [] /\ Forall not_space name) names
    /\ (List.length names <= List.length (Py.split NEWLINE out))%nat.
Proof.
  intros Ha Hrun.
  exists (printer_names (Py.split NEWLINE out)),
         (json_opt_str (default_destination (Py.split NEWLINE out))).
  rewrite serve_authenticated_printers by assumption. rewrite Hrun.
  split; [reflexivity|].
  generalize (Py.split NEWLINE out). intros lines.
  induction lines as [|line lines [IHw IHl]]; [split; [constructor|reflexivity]|].
  cbn [printer_names flat_map]. fold (printer_names lines).
  destruct (printer_line line); [|split; [exact IHw|cbn; lia]].
  pose proof (split_ws_words line) as Hw.
  destruct (Py.split_ws line) as [|a [|b l]]; cbn [nth_error app];
    try (split; [exact IHw|cbn; lia]).
  split; [|cbn; lia].
  constructor; [|exact IHw].
  inversion Hw as [|? ? _ Hw']; subst. now inversion Hw'.
Qed.

Lemma listed_printers_are_words_witness :
  exists names default,
    fst (serve Sample.environ_pinned Sample.healthy GET_printers
               (Sample.req (Some Sample.secret) "" None) empty_world)
    = (jsonify [(lit "printers", JList (map JStr names));
                (lit "default", default);
                (lit "configured", JStr (Config.PRINTER_NAME Sample.environ_pinned))],
       200%Z)
    /\ Forall (fun name => name <> [] /\ Forall not_space name) names
    /\ (List.length names
        <= List.length (Py.split NEWLINE Sample.lpstat_p_d_output))%nat.
Proof.
  assert (Ha : authenticated Sample.environ_pinned
                 (Sample.req (Some Sample.secret) "" None)).
  { split; [reflexivity|split; [vm_compute; discriminate|reflexivity]]. }
  assert (Hrun : run_child Sample.healthy LPSTAT_P_D
                 = Completed 0 Sample.lpstat_p_d_output []).
  { vm_compute. reflexivity. }
  exact (listed_printers_are_words Sample.environ_pinned Sample.healthy
           (Sample.req (Some Sample.secret) "" None) empty_world
           0%Z Sample.lpstat_p_d_output [] Ha Hrun).
Defined.

(** X14: a job identifier returned by [print_image] is a non-empty
    text without whitespace, and it comes with the success flag set. *)
Theorem job_id_is_a_word environ P path copies w success message tok :
  fst (print_image environ P path copies w) = Return (success, message, Some tok) ->
  success = true /\ tok <> [] /\ Forall not_space tok.
Proof.
  rewrite print_image_run. cbn [fst]. unfold submission.
  destruct (truthy (resolved_printer environ P)); cbn [fst];
    [|intros H; inversion H].
  destruct (run_child P _) as [rc out err| |msg]; cbn [job_result].
  2,3: intros H; inversion H.
  destruct (rc =? 0)%Z; [|intros H; inversion H].
  unfold job_id_of. destruct (Py.contains REQUEST_MARKER out);
    [|intros H; inversion H].
  pose proof (split_ws_words (nth 1 (Py.split REQUEST_MARKER out) [])) as Hw.
  destruct (Py.split_ws _) as [|t l]; intros H; inversion H; subst.
  inversion Hw as [|? ? [Hne Hword] _]; subst. auto.
Qed.

Lemma job_id_is_a_word_witness :
  true = true /\ lit "PR1-42" <> [] /\ Forall not_space (lit "PR1-42").
Proof.
  apply (job_id_is_a_word Sample.environ_pinned Sample.healthy
           (lit "/tmp/tmpab12cd.png") 1 empty_world true
           (lit "Print job submitted successfully") (lit "PR1-42")).
  vm_compute. reflexivity.
Defined.

(** X15: a printer name that [get_printer_name] reads from [lpstat -d]
    (no name being pinned) carries no surrounding whitespace:
    stripping it again changes nothing. *)
Theorem discovered_printer_is_stripped environ P w name :
  Config.PRINTER_NAME environ = [] ->
  fst (get_printer_name environ P w) = Return (Some name) ->
  Py.strip name = name.
Proof.
  intros Hpin. rewrite get_printer_name_run. cbn [fst].
  unfold resolved_printer, pinned. rewrite Hpin. cbn [truthy].
  destruct (run_child P LPSTAT_D) as [rc out err| |msg]; cbn [default_of].
  2,3: intros H; inversion H.
  destruct ((rc =? 0)%Z && Py.contains DEFAULT_MARKER out);
    intros H; inversion H.
  apply strip_idem.
Qed.

Lemma discovered_printer_is_stripped_witness :
  Py.strip (lit "PR1") = lit "PR1".
Proof.
  apply (discovered_printer_is_stripped Sample.environ Sample.healthy empty_world).
  - reflexivity.
  - vm_compute. reflexivity.
Defined.

(** ** The processes a print request starts *)

(** X16: with a printer pinned in the configuration, an authenticated
    [POST /print] whose upload is stored starts exactly one process:
    [lp] with the pinned name as destination, the request's copy
    count, and the temporary file as last argument; [lpstat] is not
    consulted. *)
Theorem pinned_printer_is_the_destination environ P req w file path :
  authenticated environ req ->
  files req (lit "image") = Some file ->
  allowed_file (filename file) = true ->
  mkstemp P (temp_suffix P file) = inl path ->
  file_save P path = None ->
  Config.PRINTER_NAME environ <> [] ->
  spawned (snd (serve environ P POST_print req w))
  = spawned w ++ [lp_command (Config.PRINTER_NAME environ)
                             (requested_copies req) path]
  /\ last (lp_command (Config.PRINTER_NAME environ) (requested_copies req) path) []
     = path.
Proof.
  intros Hauth Hf Ha Hm Hs Hpin.
  rewrite serve_authenticated_print by assumption.
  rewrite (print_endpoint_run environ P _ w _ _ Hf Ha Hm Hs).
  cbn [fst snd]. rewrite spawned_cleaned. cbn [log spawned created].
  unfold submission, resolved_printer, printer_lookup, pinned.
  destruct (Config.PRINTER_NAME environ) as [|c name] eqn:E; [congruence|].
  cbn [truthy text_of snd app]. split; reflexivity.
Qed.

Lemma pinned_printer_is_the_destination_witness :
  spawned (snd (serve Sample.environ_pinned Sample.healthy POST_print
                      (Sample.req (Some Sample.secret) "cat.png" (Some (lit "2")))
                      empty_world))
  = [[lit "lp"; lit "-d"; lit "PR1"; lit "-n"; lit "2";
      lit "-o"; lit "fit-to-page"; lit "-o"; lit "media=A4.Borderless";
      lit "/tmp/tmpab12cd.png"]].
Proof.
  assert (Ha : authenticated Sample.environ_pinned
                 (Sample.req (Some Sample.secret) "cat.png" (Some (lit "2")))).
  { split; [reflexivity|split; [vm_compute; discriminate|reflexivity]]. }
  assert (Hpin : Config.PRINTER_NAME Sample.environ_pinned <> []).
  { vm_compute. discriminate. }
  destruct (pinned_printer_is_the_destination Sample.environ_pinned Sample.healthy
              (Sample.req (Some Sample.secret) "cat.png" (Some (lit "2")))
              empty_world {| filename := lit "cat.png"; stream := lit "..." |}
              (lit "/tmp/tmpab12cd.png") Ha eq_refl eq_refl eq_refl eq_refl Hpin)
    as [H _].
  rewrite H. vm_compute. reflexivity.
Defined.



(** X18: [print_image] never raises: whatever the platform does, it
    returns a triple, with no job identifier unless the success flag
    is set; it leaves the disk alone and starts at most two
    processes. *)
Theorem print_image_always_returns environ P path copies w :
  exists success message job_id started,
    print_image environ P path copies w
    = (Return (success, message, job_id), log w started)
    /\ (success = false -> job_id = None)
    /\ (List.length started <= 2)%nat
    /\ disk (log w started) = disk w.
Proof.
  rewrite print_image_run.
  destruct (fst (submission environ P path copies)) as [[success message] job_id] eqn:E.
  exists success, message, job_id,
    (printer_lookup environ ++ snd (submission environ P path copies)).
  split; [reflexivity|]. split; [|split; [|reflexivity]].
  - intros ->. unfold submission in E.
    destruct (truthy (resolved_printer environ P)); cbn [fst] in E;
      [|now inversion E].
    destruct (run_child P _) as [rc out err| |msg]; cbn [job_result] in E.
    2,3: now inversion E.
    destruct (rc =? 0)%Z; [|now inversion E].
    destruct (job_id_of out); now inversion E.
  - rewrite length_app. unfold printer_lookup, submission.
    destruct (pinned environ), (truthy (resolved_printer environ P));
      cbn; lia.
Qed.

(** X19: a line [printer <name> ...] of the [lpstat] output adds
    exactly [<name>] to the list the loop of [list_printers] builds
    and leaves the default printer found so far alone. *)
Theorem printer_line_yields_its_name printers default_printer name rest w :
  name <> [] -> Forall not_space name ->
  (rest = [] \/ exists c rest', rest = c :: rest' /\ is_space c) ->
  scan_line (printers, default_printer) (lit "printer " ++ name ++ rest) w
  = (Return (printers ++ [name], default_printer), w).
Proof.
  intros Hne Hword Hrest. unfold scan_line.
  assert (Hs : Py.startswith (lit "printer " ++ name ++ rest) (lit "printer ") = true).
  { unfold Py.startswith. now rewrite strip_prefix_app. }
  rewrite Hs.
  assert (Hp : exists more,
             Py.split_ws (lit "printer " ++ name ++ rest)
             = lit "printer" :: name :: more).
  { unfold Py.split_ws.
    change (lit "printer " ++ name ++ rest)
      with (lit "printer" ++ " "%char :: name ++ rest).
    rewrite split_ws_word by repeat constructor.
    cbn [Py.split_ws_go]. change (Py.isspace " ") with true. cbv iota.
    destruct (split_ws_first [] name rest (Forall_nil _) Hne Hword Hrest)
      as [more Hmore].
    unfold Py.split_ws in Hmore. cbn [app] in Hmore. rewrite Hmore.
    exists more. reflexivity. }
  destruct Hp as [more ->]. reflexivity.
Qed.

Lemma printer_line_yields_its_name_witness :
  scan_line ([lit "Office"], None)
            (lit "printer " ++ lit "PR1" ++ lit " is idle.") empty_world
  = (Return ([lit "Office"] ++ [lit "PR1"], None), empty_world).
Proof.
  apply printer_line_yields_its_name.
  - discriminate.
  - repeat constructor.
  - right. exists " "%char, (lit "is idle."). split; reflexivity.
Defined.

(** ** Bodies over the size limit *)

(** X20: an authenticated [POST /print] whose body is longer than
    [MAX_CONTENT_LENGTH] (16 MiB) is answered 413 whatever it
    contains, before the upload is looked at: no process is started
    and no file is created.  [GET /health] and [GET /printers] never
    read the body and answer as for a small one. *)
Theorem oversized_body_refused environ P req w :
  authenticated environ req ->
  (Config.MAX_CONTENT_LENGTH < content_length req)%Z ->
  Config.MAX_CONTENT_LENGTH = 16777216%Z
  /\ serve environ P POST_print req w
     = ((JStr (lit "Request Entity Too Large"), 413%Z), w)
  /\ (forall r, r <> POST_print ->
        serve environ P r req w
        = serve environ P r
            {| headers := headers req; content_length := 0;
               uploads := uploads req; fields := fields req |} w).
Proof.
  intros Ha Hsize. split; [reflexivity|]. split.
  - apply serve_too_large; [assumption|now apply too_large_true].
  - intros r Hr. destruct r; [reflexivity|congruence|].
    unfold serve. cbn [view]. unfold require_api_key. cbn [headers].
    destruct (truthy (headers req (lit "X-API-Key"))); [|reflexivity].
    cbn [negb]. unfold bind. destruct (compare_digest _ _ w) as [[[|]|e] w1];
      reflexivity.
Qed.

Lemma oversized_body_refused_witness :
  serve Sample.environ Sample.healthy POST_print
        (Sample.big_req (Some Sample.secret) "cat.png") empty_world
  = ((JStr (lit "Request Entity Too Large"), 413%Z), empty_world).
Proof.
  assert (Ha : authenticated Sample.environ
                 (Sample.big_req (Some Sample.secret) "cat.png")).
  { split; [reflexivity|split; [vm_compute; discriminate|reflexivity]]. }
  assert (Hsize : (Config.MAX_CONTENT_LENGTH
                   < content_length (Sample.big_req (Some Sample.secret) "cat.png"))%Z).
  { vm_compute. reflexivity. }
  exact (proj1 (proj2 (oversized_body_refused Sample.environ Sample.healthy
                         (Sample.big_req (Some Sample.secret) "cat.png")
                         empty_world Ha Hsize))).
Defined.
